(** * NestJS-RBAC: the guard chain and its three capability models

    A shallow embedding of the authentication guards, the authorization
    guards (roles / permissions / module permissions) and the credential
    services of the repository, followed by the properties proved about
    them.  TypeScript values are modelled as follows:

    - string enums ([Role], [Permission], [ModulePermission]) are their
      runtime strings;
    - [undefined] / [null] are [None]; an optional field is an [option];
    - a JavaScript [Map] is a [gmap]; an object literal used as a table
      keeps its own properties and inherits those of [Object.prototype];
    - [throw] is the [Throw] constructor of a small result monad;
    - [Date.now()] and [Math.random()] are explicit inputs. *)

From stdpp Require Import gmap strings list fin_maps pretty.
From Stdlib Require Import Ascii String.

Local Open Scope string_scope.

(** ** JavaScript helpers *)

Module Js.

(** [Array.prototype.includes] on an array of strings. *)
Definition includes (arr : list string) (x : string) : bool :=
  existsb (String.eqb x) arr.

(** [Array.prototype.some] / [every] / [filter]. *)
Definition some {A} (arr : list A) (f : A → bool) : bool := existsb f arr.
Definition every {A} (arr : list A) (f : A → bool) : bool := forallb f arr.
Definition filter {A} (arr : list A) (f : A → bool) : list A := List.filter f arr.

(** [Array.prototype.join(sep)] on an array of strings. *)
Definition join (arr : list string) (sep : string) : string :=
  String.concat sep arr.

(** [String.prototype.split(' ')]: cut at every single space; always at
    least one segment, possibly empty ones. *)
Fixpoint split_space (s : string) : list string :=
  match s with
  | EmptyString => [EmptyString]
  | String c rest =>
      if Ascii.eqb c " "%char then EmptyString :: split_space rest
      else match split_space rest with
           | seg :: segs => String c seg :: segs
           | [] => [String c EmptyString]
           end
  end.

(** Truthiness of a string that may be [undefined]: [undefined] and the
    empty string are falsy. *)
Definition truthy_string (s : option string) : bool :=
  match s with
  | None => false
  | Some EmptyString => false
  | Some _ => true
  end.

(** The names every object literal inherits from [Object.prototype]. *)
Definition ObjectPrototype : list string :=
  [ "constructor"; "__defineGetter__"; "__defineSetter__"; "hasOwnProperty";
    "__lookupGetter__"; "__lookupSetter__"; "isPrototypeOf";
    "propertyIsEnumerable"; "toString"; "valueOf"; "__proto__";
    "toLocaleString" ].

(** What [obj[key] || null] yields for an object literal [obj] whose
    own properties are records: the own record, else a member inherited
    from [Object.prototype] (all of them truthy), else [null]. *)
Inductive Lookup (R : Type) : Type :=
  | Own (r : R)
  | Inherited (name : string)
  | Null.
Arguments Own {R} r.
Arguments Inherited {R} name.
Arguments Null {R}.

Fixpoint own_property {R} (obj : list (string * R)) (key : string) : option R :=
  match obj with
  | [] => None
  | (k, v) :: rest => if String.eqb k key then Some v else own_property rest key
  end.

Definition get_or_null {R} (obj : list (string * R)) (key : string) : Lookup R :=
  match own_property obj key with
  | Some r => Own r
  | None => if includes ObjectPrototype key then Inherited key else Null
  end.

End Js.

(** ** HTTP exceptions and guard results *)

Inductive HttpException : Type :=
| UnauthorizedException (message : string)
| ForbiddenException (message : string).

Definition statusCode (e : HttpException) : nat :=
  match e with
  | UnauthorizedException _ => 401
  | ForbiddenException _ => 403
  end.

Definition message (e : HttpException) : string :=
  match e with
  | UnauthorizedException m => m
  | ForbiddenException m => m
  end.

Inductive Result (A : Type) : Type :=
| Return (a : A)
| Throw (e : HttpException).
Arguments Return {A} a.
Arguments Throw {A} e.

Definition try_catch {A} (body : Result A) (handler : HttpException → Result A)
  : Result A :=
  match body with
  | Return a => Return a
  | Throw e => handler e
  end.

(** ** Route metadata and the reflector *)

(** What [SetMetadata] can attach to a handler or to its controller class:
    one optional value per metadata key used in the repository. *)
Record Metadata : Type := {
  IS_PUBLIC_KEY : option bool;                    (* 'isPublic' *)
  ROLES_KEY : option (list string);               (* 'roles' *)
  PERMISSIONS_KEY : option (list string);         (* 'permissions' *)
  MODULE_PERMISSIONS_KEY : option (list string)   (* 'module_permissions' *)
}.

Definition no_metadata : Metadata :=
  {| IS_PUBLIC_KEY := None; ROLES_KEY := None; PERMISSIONS_KEY := None;
     MODULE_PERMISSIONS_KEY := None |}.

(** Modelled from the spec: the framework's [Reflector.getAllAndOverride]
    is not part of the repository; per section 4.4 the value attached to
    the handler overrides the one attached to its class (closest wins). *)
Definition getAllAndOverride {A} (key : Metadata → option A)
    (handler class : Metadata) : option A :=
  match key handler with
  | Some v => Some v
  | None => key class
  end.

(** The request as the guards see it: the authorization header and the
    [user] property the authentication guard sets. *)
Record Request (User : Type) : Type := {
  authorization : option string;
  user : option User
}.
Arguments authorization {User} _.
Arguments user {User} _.

Record ExecutionContext (User : Type) : Type := {
  getHandler : Metadata;
  getClass : Metadata;
  getRequest : Request User
}.
Arguments getHandler {User} _.
Arguments getClass {User} _.
Arguments getRequest {User} _.

(** [!required || required.length === 0] *)
Definition no_requirement (required : option (list string)) : bool :=
  match required with
  | None => true
  | Some [] => true
  | Some _ => false
  end.

(** [if (isPublic)] on the reflected flag. *)
Definition truthy_flag (flag : option bool) : bool :=
  match flag with
  | Some true => true
  | _ => false
  end.

(** ** The authentication guard

    The three [auth.guard.ts] files are the same code up to the private
    [validateToken] method, which is the section variable here. *)

Module AuthGuard.
Section AuthGuard.
Context {User : Type}.
Variable validateToken : string → option User.

Definition extractTokenFromHeader (request : Request User) : option string :=
  match authorization request with
  | None => None
  | Some authHeader =>
      if negb (Js.truthy_string (Some authHeader)) then None
      else
        (* const [type, token] = authHeader.split(' ') *)
        match Js.split_space authHeader with
        | type :: token :: _ =>
            if String.eqb type "Bearer" then Some token else None
        | _ => None
        end
  end.

(** The body of the [try] block: the request after [request.user = user]
    when it returns [true], or the exception it throws. *)
Definition try_block (request : Request User) (token : string)
  : Result (Request User) :=
  match validateToken token with
  | None => Throw (UnauthorizedException "Invalid authentication token")
  | Some u =>
      Return {| authorization := authorization request; user := Some u |}
  end.

(** [canActivate]: the outcome together with the request object as the
    guard leaves it. *)
Definition canActivate (context : ExecutionContext User)
  : Result bool * Request User :=
  let isPublic :=
    getAllAndOverride IS_PUBLIC_KEY (getHandler context) (getClass context) in
  if truthy_flag isPublic then (Return true, getRequest context)
  else
    let request := getRequest context in
    let token := extractTokenFromHeader request in
    if negb (Js.truthy_string token) then
      (Throw (UnauthorizedException "Authentication token not found"), request)
    else
      match
        try_catch (try_block request (default "" token))
          (λ _, Throw (UnauthorizedException "Token validation failed"))
      with
      | Return request' => (Return true, request')
      | Throw e => (Throw e, request)
      end.
End AuthGuard.
End AuthGuard.

(** ** The guard chain *)

(** Modelled from the spec: the framework runs the guards listed in
    [@UseGuards] in order (section 4.5); a guard that throws ends the
    chain with its exception, a guard that returns [false] ends it with
    the framework's 403, and the next guard sees the request as the
    previous one left it. *)
Definition useGuards {User}
    (authenticate : ExecutionContext User → Result bool * Request User)
    (authorize : ExecutionContext User → Result bool)
    (context : ExecutionContext User) : Result bool * Request User :=
  match authenticate context with
  | (Return true, request) =>
      match authorize {| getHandler := getHandler context;
                         getClass := getClass context;
                         getRequest := request |} with
      | Return true => (Return true, request)
      | Return false => (Throw (ForbiddenException "Forbidden resource"), request)
      | Throw e => (Throw e, request)
      end
  | (Return false, request) =>
      (Throw (ForbiddenException "Forbidden resource"), request)
  | (Throw e, request) => (Throw e, request)
  end.

(** ** Example 1: hierarchical roles, JWT bearer tokens *)

Module Example1.

(** [enum Role] *)
Definition READ : string := "read".
Definition ADMIN : string := "admin".
Definition MANAGER : string := "manager".
Definition SUPER_ADMIN : string := "super_admin".

(** [interface UserData] (and [JwtPayload], which has the same fields).
    [roles] is optional because the guard tests [!user.roles]. *)
Record UserData : Type := {
  id : string;
  username : string;
  email : string;
  roles : option (list string)
}.

(** *** The JWT service as [example1.module.ts] configures it

    [JwtModule.register({ secret, signOptions: { expiresIn: '24h' } })].
    The compact serialisation and the HMAC are abstracted: a token is
    either the claims set together with the key it was signed with, or
    a string that does not parse.  Times are [Date.now()] milliseconds;
    the library stamps and compares whole seconds. *)

Definition secret : string := "your-secret-key-change-this-in-production".
Definition expiresIn : N := 24 * 60 * 60.

Inductive Jwt : Type :=
| Signed (key : string) (payload : UserData) (iat exp : N)
| Malformed (raw : string).

Definition sign (now : N) (payload : UserData) : Jwt :=
  let iat := (now / 1000)%N in
  Signed secret payload iat (iat + expiresIn).

(** [verifyAsync]: [None] stands for the rejected promise (bad format,
    bad signature, or [TokenExpiredError] once the clock reaches [exp]). *)
Definition verifyAsync (now : N) (token : Jwt) : option UserData :=
  match token with
  | Malformed _ => None
  | Signed key payload _ exp =>
      if negb (String.eqb key secret) then None
      else if (exp <=? now / 1000)%N then None
      else Some payload
  end.

(** *** [JwtAuthService] *)

Definition generateToken (now : N) (user : UserData) : Jwt :=
  let payload :=
    {| id := id user; username := username user; email := email user;
       roles := roles user |} in
  sign now payload.

Definition verifyToken (now : N) (token : Jwt) : option UserData :=
  match verifyAsync now token with
  | Some payload =>
      Some {| id := id payload; username := username payload;
              email := email payload; roles := roles payload |}
  | None => None
  end.

Definition users : list UserData :=
  [ {| id := "1"; username := "john_admin"; email := "john@example.com";
       roles := Some [ADMIN; READ] |};
    {| id := "2"; username := "jane_manager"; email := "jane@example.com";
       roles := Some [MANAGER; READ] |};
    {| id := "3"; username := "super_admin"; email := "super@example.com";
       roles := Some [SUPER_ADMIN; ADMIN; MANAGER; READ] |};
    {| id := "4"; username := "reader"; email := "reader@example.com";
       roles := Some [READ] |} ].

(** The [password] argument is not used by the body. *)
Definition validateUser (username' password : string) : option UserData :=
  List.find (λ u, String.eqb (username u) username') users.

(** *** [UsersController.login] *)

Record LoginResponse : Type := {
  login_message : string;
  login_token : Jwt;
  login_username : string;
  login_roles : option (list string)
}.

Definition login (now : N) (username' password : string) : Result LoginResponse :=
  match validateUser username' password with
  | None => Throw (UnauthorizedException "Invalid credentials")
  | Some user =>
      let token := generateToken now user in
      Return {| login_message := "Login successful"; login_token := token;
                login_username := username user; login_roles := roles user |}
  end.

(** *** [RolesGuard] *)

Module RolesGuard.

Definition canActivate (context : ExecutionContext UserData) : Result bool :=
  let requiredRoles :=
    getAllAndOverride ROLES_KEY (getHandler context) (getClass context) in
  if no_requirement requiredRoles then Return true
  else
    let requiredRoles := default [] requiredRoles in
    let request := getRequest context in
    match user request with
    | None => Throw (ForbiddenException "User roles not found")
    | Some user =>
        match roles user with
        | None => Throw (ForbiddenException "User roles not found")
        | Some user_roles =>
            (* ANY of the required roles (OR logic) *)
            let hasRole :=
              Js.some requiredRoles (λ role, Js.includes user_roles role) in
            if negb hasRole then
              Throw (ForbiddenException
                ("Access denied. Required roles: "
                 +:+ Js.join requiredRoles ", "
                 +:+ ". Your roles: " +:+ Js.join user_roles ", "))
            else Return true
        end
    end.

End RolesGuard.

End Example1.

(** ** Token strings minted by the two [AuthService] classes

    [`token-${username}-${Date.now()}-${Math.random().toString(36).substring(7)}`]:
    [now] is the clock reading and [rnd] the random suffix. *)
Definition token_string (username : string) (now : N) (rnd : string) : string :=
  "token-" +:+ username +:+ "-" +:+ pretty now +:+ "-" +:+ rnd.

(** ** Example 2: action permissions *)

Module Example2.

(** [enum Permission] *)
Definition READ : string := "read".
Definition CREATE : string := "create".
Definition UPDATE : string := "update".
Definition DELETE : string := "delete".

(** *** [AuthService] *)

Module AuthService.

Record User : Type := {
  username : string;
  password : string;
  permissions : list string
}.

(** The value type of [tokenMap] and of [predefinedTokens]. *)
Record TokenUser : Type := {
  token_username : string;
  token_permissions : list string
}.

Definition users : list User :=
  [ {| username := "reader"; password := "password123";
       permissions := [READ] |};
    {| username := "creator"; password := "password123";
       permissions := [READ; CREATE] |};
    {| username := "editor"; password := "password123";
       permissions := [READ; UPDATE] |};
    {| username := "admin"; password := "password123";
       permissions := [READ; CREATE; UPDATE; DELETE] |} ].

Definition validateUser (username' password' : string) : option User :=
  List.find
    (λ u, String.eqb (username u) username' && String.eqb (password u) password')
    users.

(** [generateToken]: the token returned and [tokenMap] after the [set]. *)
Definition generateToken (now : N) (rnd : string)
    (username' : string) (permissions' : list string)
    (tokenMap : gmap string TokenUser) : string * gmap string TokenUser :=
  let token := token_string username' now rnd in
  (token,
   <[token := {| token_username := username';
                 token_permissions := permissions' |}]> tokenMap).

Definition predefinedTokens : list (string * TokenUser) :=
  [ ("token-read-only",
     {| token_username := "reader"; token_permissions := [READ] |});
    ("token-creator",
     {| token_username := "creator"; token_permissions := [READ; CREATE] |});
    ("token-editor",
     {| token_username := "editor"; token_permissions := [READ; UPDATE] |});
    ("token-full-access",
     {| token_username := "admin";
        token_permissions := [READ; CREATE; UPDATE; DELETE] |}) ].

Definition validateToken (tokenMap : gmap string TokenUser) (token : string)
  : Js.Lookup TokenUser :=
  match tokenMap !! token with
  | Some stored => Js.Own stored
  | None => Js.get_or_null predefinedTokens token
  end.

End AuthService.

(** *** [AuthController.login] *)

Record LoginResponse : Type := {
  login_message : string;
  login_token : string;
  login_username : string;
  login_permissions : list string
}.

Definition login (now : N) (rnd : string) (username' password' : string)
    (tokenMap : gmap string AuthService.TokenUser)
  : Result LoginResponse * gmap string AuthService.TokenUser :=
  match AuthService.validateUser username' password' with
  | None => (Throw (UnauthorizedException "Invalid username or password"), tokenMap)
  | Some user =>
      let '(token, tokenMap') :=
        AuthService.generateToken now rnd (AuthService.username user)
          (AuthService.permissions user) tokenMap in
      (Return {| login_message := "Login successful"; login_token := token;
                 login_username := AuthService.username user;
                 login_permissions := AuthService.permissions user |},
       tokenMap')
  end.

(** *** [AuthGuard] *)

(** What the guard attaches as [request.user]; [permissions] is optional
    because [PermissionsGuard] tests [!user.permissions]. *)
Record User : Type := {
  id : string;
  username : string;
  email : string;
  permissions : option (list string)
}.

(** The [Map] built inside the guard's private [validateToken]. *)
Definition users : gmap string User :=
  list_to_map
    [ ("token-read-only",
       {| id := "1"; username := "reader"; email := "reader@example.com";
          permissions := Some [READ] |});
      ("token-creator",
       {| id := "2"; username := "creator"; email := "creator@example.com";
          permissions := Some [READ; CREATE] |});
      ("token-editor",
       {| id := "3"; username := "editor"; email := "editor@example.com";
          permissions := Some [READ; UPDATE] |});
      ("token-full-access",
       {| id := "4"; username := "admin"; email := "admin@example.com";
          permissions := Some [READ; CREATE; UPDATE; DELETE] |}) ].

(** [users.get(token) || null] *)
Definition validateToken (token : string) : option User := users !! token.

Definition AuthGuard_canActivate (context : ExecutionContext User)
  : Result bool * Request User :=
  AuthGuard.canActivate validateToken context.

(** *** [PermissionsGuard] *)

Module PermissionsGuard.

Definition canActivate (context : ExecutionContext User) : Result bool :=
  let requiredPermissions :=
    getAllAndOverride PERMISSIONS_KEY (getHandler context) (getClass context) in
  if no_requirement requiredPermissions then Return true
  else
    let requiredPermissions := default [] requiredPermissions in
    let request := getRequest context in
    match user request with
    | None => Throw (ForbiddenException "User permissions not found")
    | Some user =>
        match permissions user with
        | None => Throw (ForbiddenException "User permissions not found")
        | Some user_permissions =>
            let hasAllPermissions :=
              Js.every requiredPermissions
                (λ permission, Js.includes user_permissions permission) in
            if negb hasAllPermissions then
              let missingPermissions :=
                Js.filter requiredPermissions
                  (λ permission, negb (Js.includes user_permissions permission)) in
              Throw (ForbiddenException
                ("Access denied. Missing permissions: "
                 +:+ Js.join missingPermissions ", "
                 +:+ ". Your permissions: "
                 +:+ Js.join user_permissions ", "))
            else Return true
        end
    end.

End PermissionsGuard.

(** [@UseGuards(AuthGuard, PermissionsGuard)] *)
Definition guards (context : ExecutionContext User) : Result bool * Request User :=
  useGuards AuthGuard_canActivate PermissionsGuard.canActivate context.

End Example2.

(** ** Example 3: module permissions *)

Module Example3.

(** [enum ModulePermission] *)
Definition USERS_LIST : string := "users:list".
Definition USERS_READ : string := "users:read".
Definition USERS_CREATE : string := "users:create".
Definition USERS_UPDATE : string := "users:update".
Definition USERS_DELETE : string := "users:delete".
Definition POSTS_LIST : string := "posts:list".
Definition POSTS_READ : string := "posts:read".
Definition POSTS_CREATE : string := "posts:create".
Definition POSTS_UPDATE : string := "posts:update".
Definition POSTS_DELETE : string := "posts:delete".
Definition POSTS_PUBLISH : string := "posts:publish".
Definition PRODUCTS_LIST : string := "products:list".
Definition PRODUCTS_READ : string := "products:read".
Definition PRODUCTS_CREATE : string := "products:create".
Definition PRODUCTS_UPDATE : string := "products:update".
Definition PRODUCTS_DELETE : string := "products:delete".
Definition PRODUCTS_MANAGE_INVENTORY : string := "products:manage_inventory".
Definition ORDERS_LIST : string := "orders:list".
Definition ORDERS_READ : string := "orders:read".
Definition ORDERS_CREATE : string := "orders:create".
Definition ORDERS_UPDATE : string := "orders:update".
Definition ORDERS_DELETE : string := "orders:delete".
Definition ORDERS_CANCEL : string := "orders:cancel".
Definition ORDERS_REFUND : string := "orders:refund".

(** [Object.values(ModulePermission)] *)
Definition ModulePermission_values : list string :=
  [ USERS_LIST; USERS_READ; USERS_CREATE; USERS_UPDATE; USERS_DELETE;
    POSTS_LIST; POSTS_READ; POSTS_CREATE; POSTS_UPDATE; POSTS_DELETE;
    POSTS_PUBLISH;
    PRODUCTS_LIST; PRODUCTS_READ; PRODUCTS_CREATE; PRODUCTS_UPDATE;
    PRODUCTS_DELETE; PRODUCTS_MANAGE_INVENTORY;
    ORDERS_LIST; ORDERS_READ; ORDERS_CREATE; ORDERS_UPDATE; ORDERS_DELETE;
    ORDERS_CANCEL; ORDERS_REFUND ].

(** *** [AuthService] *)

Module AuthService.

Record User : Type := {
  username : string;
  password : string;
  role : string;
  permissions : list string
}.

Record TokenUser : Type := {
  token_username : string;
  token_role : string;
  token_permissions : list string
}.

Definition content_manager_permissions : list string :=
  [ POSTS_LIST; POSTS_READ; POSTS_CREATE; POSTS_UPDATE; POSTS_DELETE;
    POSTS_PUBLISH ].
Definition product_manager_permissions : list string :=
  [ PRODUCTS_LIST; PRODUCTS_READ; PRODUCTS_CREATE; PRODUCTS_UPDATE;
    PRODUCTS_DELETE; PRODUCTS_MANAGE_INVENTORY ].
Definition customer_service_permissions : list string :=
  [ USERS_LIST; USERS_READ; USERS_UPDATE; ORDERS_LIST; ORDERS_READ;
    ORDERS_UPDATE; ORDERS_CANCEL; ORDERS_REFUND ].
Definition readonly_permissions : list string :=
  [ USERS_LIST; USERS_READ; POSTS_LIST; POSTS_READ; PRODUCTS_LIST;
    PRODUCTS_READ; ORDERS_LIST; ORDERS_READ ].

Definition users : list User :=
  [ {| username := "admin"; password := "password123";
       role := "Administrator"; permissions := ModulePermission_values |};
    {| username := "content_manager"; password := "password123";
       role := "Content Manager"; permissions := content_manager_permissions |};
    {| username := "product_manager"; password := "password123";
       role := "Product Manager"; permissions := product_manager_permissions |};
    {| username := "customer_service"; password := "password123";
       role := "Customer Service"; permissions := customer_service_permissions |};
    {| username := "readonly"; password := "password123";
       role := "Read Only User"; permissions := readonly_permissions |} ].

Definition validateUser (username' password' : string) : option User :=
  List.find
    (λ u, String.eqb (username u) username' && String.eqb (password u) password')
    users.

Definition generateToken (now : N) (rnd : string)
    (username' role' : string) (permissions' : list string)
    (tokenMap : gmap string TokenUser) : string * gmap string TokenUser :=
  let token := token_string username' now rnd in
  (token,
   <[token := {| token_username := username'; token_role := role';
                 token_permissions := permissions' |}]> tokenMap).

Definition predefinedTokens : list (string * TokenUser) :=
  [ ("token-admin-full",
     {| token_username := "admin"; token_role := "Administrator";
        token_permissions := ModulePermission_values |});
    ("token-content-manager",
     {| token_username := "content_manager"; token_role := "Content Manager";
        token_permissions := content_manager_permissions |});
    ("token-product-manager",
     {| token_username := "product_manager"; token_role := "Product Manager";
        token_permissions := product_manager_permissions |});
    ("token-customer-service",
     {| token_username := "customer_service"; token_role := "Customer Service";
        token_permissions := customer_service_permissions |});
    ("token-readonly",
     {| token_username := "readonly"; token_role := "Read Only User";
        token_permissions := readonly_permissions |}) ].

Definition validateToken (tokenMap : gmap string TokenUser) (token : string)
  : Js.Lookup TokenUser :=
  match tokenMap !! token with
  | Some stored => Js.Own stored
  | None => Js.get_or_null predefinedTokens token
  end.

End AuthService.

(** *** [AuthGuard] *)

Record User : Type := {
  id : string;
  username : string;
  email : string;
  permissions : option (list string)
}.

Definition users : gmap string User :=
  list_to_map
    [ ("token-admin-full",
       {| id := "1"; username := "admin"; email := "admin@example.com";
          permissions := Some ModulePermission_values |});
      ("token-content-manager",
       {| id := "2"; username := "content_manager";
          email := "content@example.com";
          permissions := Some [ POSTS_LIST; POSTS_READ; POSTS_CREATE;
                                POSTS_UPDATE; POSTS_PUBLISH ] |});
      ("token-product-manager",
       {| id := "3"; username := "product_manager";
          email := "products@example.com";
          permissions := Some [ PRODUCTS_LIST; PRODUCTS_READ; PRODUCTS_CREATE;
                                PRODUCTS_UPDATE; PRODUCTS_MANAGE_INVENTORY ] |});
      ("token-customer-service",
       {| id := "4"; username := "customer_service";
          email := "support@example.com";
          permissions := Some [ USERS_LIST; USERS_READ; ORDERS_LIST;
                                ORDERS_READ; ORDERS_UPDATE; ORDERS_CANCEL;
                                ORDERS_REFUND ] |});
      ("token-readonly",
       {| id := "5"; username := "readonly"; email := "readonly@example.com";
          permissions := Some AuthService.readonly_permissions |}) ].

Definition validateToken (token : string) : option User := users !! token.

Definition AuthGuard_canActivate (context : ExecutionContext User)
  : Result bool * Request User :=
  AuthGuard.canActivate validateToken context.

(** *** [ModulePermissionsGuard] *)

Module ModulePermissionsGuard.

Definition canActivate (context : ExecutionContext User) : Result bool :=
  let requiredPermissions :=
    getAllAndOverride MODULE_PERMISSIONS_KEY (getHandler context)
      (getClass context) in
  if no_requirement requiredPermissions then Return true
  else
    let requiredPermissions := default [] requiredPermissions in
    let request := getRequest context in
    match user request with
    | None => Throw (ForbiddenException "User permissions not found")
    | Some user =>
        match permissions user with
        | None => Throw (ForbiddenException "User permissions not found")
        | Some user_permissions =>
            let hasAllPermissions :=
              Js.every requiredPermissions
                (λ permission, Js.includes user_permissions permission) in
            if negb hasAllPermissions then
              let missingPermissions :=
                Js.filter requiredPermissions
                  (λ permission, negb (Js.includes user_permissions permission)) in
              Throw (ForbiddenException
                ("Access denied. Missing permissions: "
                 +:+ Js.join missingPermissions ", "))
            else Return true
        end
    end.

End ModulePermissionsGuard.

(** [@UseGuards(AuthGuard, ModulePermissionsGuard)] *)
Definition guards (context : ExecutionContext User) : Result bool * Request User :=
  useGuards AuthGuard_canActivate ModulePermissionsGuard.canActivate context.

End Example3.

(** * Properties *)

(** ** Array helpers *)

Lemma includes_In (arr : list string) (x : string) :
  Js.includes arr x = true ↔ In x arr.
Proof.
  unfold Js.includes. rewrite existsb_exists. split.
  - intros (y & Hy & Heq). apply String.eqb_eq in Heq. by subst.
  - intros Hx. exists x. split; [done | apply String.eqb_refl].
Qed.

Lemma some_includes_iff (required granted : list string) :
  Js.some required (λ r, Js.includes granted r) = true
  ↔ ∃ r, In r required ∧ In r granted.
Proof.
  unfold Js.some. rewrite existsb_exists.
  split; intros (r & Hr & Hg); exists r; split; try done;
    by apply includes_In.
Qed.

Lemma every_includes_iff (required granted : list string) :
  Js.every required (λ r, Js.includes granted r) = true
  ↔ ∀ r, In r required → In r granted.
Proof.
  unfold Js.every. rewrite forallb_forall.
  split; intros H r Hr; apply includes_In; auto.
Qed.

(** The [filter] of the ALL guards computes the set difference. *)
Lemma missing_iff (required granted : list string) (x : string) :
  In x (Js.filter required (λ p, negb (Js.includes granted p)))
  ↔ In x required ∧ ¬ In x granted.
Proof.
  unfold Js.filter. rewrite filter_In, negb_true_iff.
  pose proof (includes_In granted x) as Hinc.
  destruct (Js.includes granted x); split; intros [Hx Hg]; split; try done.
  - exfalso. apply Hg, Hinc. done.
  - intros Hin. apply Hinc in Hin. done.
Qed.

Lemma no_requirement_nonempty (required : list string) :
  required ≠ [] → no_requirement (Some required) = false.
Proof. by destruct required. Qed.

Lemma every_empty_granted (required : list string) :
  required ≠ [] → Js.every required (λ p, Js.includes [] p) = false.
Proof. by destruct required. Qed.

Lemma missing_empty_granted (required : list string) :
  Js.filter required (λ p, negb (Js.includes [] p)) = required.
Proof.
  induction required as [|r required IH]; [done|].
  cbn. f_equal. exact IH.
Qed.

(** ** The ANY rule of [RolesGuard] *)

Section RolesGuard.
Import Example1.
Variable context : ExecutionContext UserData.
Variables (required granted : list string) (u : UserData).
Hypothesis Hrequired :
  getAllAndOverride ROLES_KEY (getHandler context) (getClass context)
  = Some required.
Hypothesis Hnonempty : required ≠ [].
Hypothesis Huser : user (getRequest context) = Some u.
Hypothesis Hroles : roles u = Some granted.

Lemma RolesGuard_eval :
  RolesGuard.canActivate context =
  if Js.some required (λ role, Js.includes granted role) then Return true
  else Throw (ForbiddenException
         ("Access denied. Required roles: " +:+ Js.join required ", "
          +:+ ". Your roles: " +:+ Js.join granted ", ")).
Proof.
  unfold RolesGuard.canActivate.
  rewrite Hrequired, (no_requirement_nonempty _ Hnonempty), Huser, Hroles.
  cbn [default]. by destruct (Js.some _ _).
Qed.
End RolesGuard.

(** C1. Hierarchical roles (ANY rule): with a non-empty required role set
    and an identity whose [roles] field is present, [RolesGuard] allows
    exactly when some required role is among the caller's roles; when it
    denies, it throws a 403 whose message lists all the required roles
    and all the caller's roles. *)
Theorem C1_roles_guard_any_rule
    (context : ExecutionContext Example1.UserData)
    (required granted : list string) (u : Example1.UserData) :
  getAllAndOverride ROLES_KEY (getHandler context) (getClass context)
    = Some required →
  required ≠ [] →
  user (getRequest context) = Some u →
  Example1.roles u = Some granted →
  (Example1.RolesGuard.canActivate context = Return true
     ↔ ∃ r, In r required ∧ In r granted)
  ∧ ((¬ ∃ r, In r required ∧ In r granted) →
     ∃ e, Example1.RolesGuard.canActivate context = Throw e
          ∧ statusCode e = 403
          ∧ message e =
              "Access denied. Required roles: " +:+ Js.join required ", "
              +:+ ". Your roles: " +:+ Js.join granted ", ").
Proof.
  intros Hreq Hne Hu Hr.
  rewrite (RolesGuard_eval context required granted u Hreq Hne Hu Hr).
  pose proof (some_includes_iff required granted) as Hany.
  destruct (Js.some required _) eqn:Hsome.
  - split; [split; [intros _; by apply Hany | done] |].
    intros Hnone. exfalso. apply Hnone. by apply Hany.
  - split.
    + split; [done |]. intros Hex. apply Hany in Hex. done.
    + intros _. eexists. split; [done |]. split; done.
Qed.

(** The scenario of the claim: required = {admin, super_admin}, caller's
    roles = {read}. *)
Definition C1_context : ExecutionContext Example1.UserData :=
  {| getHandler :=
       {| IS_PUBLIC_KEY := None;
          ROLES_KEY := Some [Example1.ADMIN; Example1.SUPER_ADMIN];
          PERMISSIONS_KEY := None; MODULE_PERMISSIONS_KEY := None |};
     getClass := no_metadata;
     getRequest :=
       {| authorization := Some "Bearer reader-jwt";
          user := Some {| Example1.id := "4"; Example1.username := "reader";
                          Example1.email := "reader@example.com";
                          Example1.roles := Some [Example1.READ] |} |} |}.

Lemma C1_roles_guard_any_rule_witness :
  ∃ e, Example1.RolesGuard.canActivate C1_context = Throw e
       ∧ statusCode e = 403
       ∧ message e
         = "Access denied. Required roles: admin, super_admin. Your roles: read".
Proof.
  refine (proj2 (C1_roles_guard_any_rule C1_context
            [Example1.ADMIN; Example1.SUPER_ADMIN] [Example1.READ]
            _ eq_refl _ eq_refl eq_refl) _).
  - discriminate.
  - intros (r & Hreq & Hgr). vm_compute in Hreq, Hgr.
    destruct Hgr as [<- | []]. destruct Hreq as [H | [H | []]]; discriminate H.
Defined.

(** ** The ALL rule of [PermissionsGuard] and [ModulePermissionsGuard] *)

(** The missing set both guards compute on denial. *)
Definition missingPermissions (required granted : list string) : list string :=
  Js.filter required (λ permission, negb (Js.includes granted permission)).

Lemma PermissionsGuard_eval (context : ExecutionContext Example2.User)
    (required granted : list string) (u : Example2.User) :
  getAllAndOverride PERMISSIONS_KEY (getHandler context) (getClass context)
    = Some required →
  required ≠ [] →
  user (getRequest context) = Some u →
  Example2.permissions u = Some granted →
  Example2.PermissionsGuard.canActivate context =
  if Js.every required (λ p, Js.includes granted p) then Return true
  else Throw (ForbiddenException
         ("Access denied. Missing permissions: "
          +:+ Js.join (missingPermissions required granted) ", "
          +:+ ". Your permissions: " +:+ Js.join granted ", ")).
Proof.
  intros Hreq Hne Hu Hp. unfold Example2.PermissionsGuard.canActivate.
  rewrite Hreq, (no_requirement_nonempty _ Hne), Hu, Hp.
  cbn [default]. by destruct (Js.every _ _).
Qed.

Lemma ModulePermissionsGuard_eval (context : ExecutionContext Example3.User)
    (required granted : list string) (u : Example3.User) :
  getAllAndOverride MODULE_PERMISSIONS_KEY (getHandler context) (getClass context)
    = Some required →
  required ≠ [] →
  user (getRequest context) = Some u →
  Example3.permissions u = Some granted →
  Example3.ModulePermissionsGuard.canActivate context =
  if Js.every required (λ p, Js.includes granted p) then Return true
  else Throw (ForbiddenException
         ("Access denied. Missing permissions: "
          +:+ Js.join (missingPermissions required granted) ", ")).
Proof.
  intros Hreq Hne Hu Hp. unfold Example3.ModulePermissionsGuard.canActivate.
  rewrite Hreq, (no_requirement_nonempty _ Hne), Hu, Hp.
  cbn [default]. by destruct (Js.every _ _).
Qed.

(** Either every required token is granted, or the guard's answer is the
    [denied] exception. *)
Lemma all_rule_cases {A} (required granted : list string)
    (outcome : Result A) (allowed : A) (denied : HttpException) :
  outcome = (if Js.every required (λ p, Js.includes granted p)
             then Return allowed else Throw denied) →
  (outcome = Return allowed ↔ ∀ r, In r required → In r granted)
  ∧ ((¬ ∀ r, In r required → In r granted) → outcome = Throw denied).
Proof.
  intros ->. pose proof (every_includes_iff required granted) as Hall.
  destruct (Js.every required _).
  - split; [split; [intros _; by apply Hall | done] |].
    intros Hnot. exfalso. apply Hnot. by apply Hall.
  - split; [| done]. split; [done |]. intros H. apply Hall in H. done.
Qed.

(** C2. Action and module permissions (ALL rule): with a non-empty
    required set and an identity whose [permissions] field is present,
    both guards allow exactly when every required token is granted; when
    they deny, the 403 carries the missing set, which is the required
    tokens that are not granted. *)
Theorem C2_permissions_guards_all_rule (required granted : list string) :
  required ≠ [] →
  (∀ x, In x (missingPermissions required granted)
        ↔ In x required ∧ ¬ In x granted)
  ∧ (∀ (context : ExecutionContext Example2.User) (u : Example2.User),
       getAllAndOverride PERMISSIONS_KEY (getHandler context) (getClass context)
         = Some required →
       user (getRequest context) = Some u →
       Example2.permissions u = Some granted →
       (Example2.PermissionsGuard.canActivate context = Return true
          ↔ ∀ r, In r required → In r granted)
       ∧ ((¬ ∀ r, In r required → In r granted) →
          Example2.PermissionsGuard.canActivate context =
          Throw (ForbiddenException
            ("Access denied. Missing permissions: "
             +:+ Js.join (missingPermissions required granted) ", "
             +:+ ". Your permissions: " +:+ Js.join granted ", "))))
  ∧ (∀ (context : ExecutionContext Example3.User) (u : Example3.User),
       getAllAndOverride MODULE_PERMISSIONS_KEY (getHandler context)
         (getClass context) = Some required →
       user (getRequest context) = Some u →
       Example3.permissions u = Some granted →
       (Example3.ModulePermissionsGuard.canActivate context = Return true
          ↔ ∀ r, In r required → In r granted)
       ∧ ((¬ ∀ r, In r required → In r granted) →
          Example3.ModulePermissionsGuard.canActivate context =
          Throw (ForbiddenException
            ("Access denied. Missing permissions: "
             +:+ Js.join (missingPermissions required granted) ", ")))).
Proof.
  intros Hne. split; [| split].
  - intros x. apply missing_iff.
  - intros context u Hreq Hu Hp. apply all_rule_cases.
    by apply (PermissionsGuard_eval context required granted u).
  - intros context u Hreq Hu Hp. apply all_rule_cases.
    by apply (ModulePermissionsGuard_eval context required granted u).
Qed.

(** A request whose identity holds [granted], on a handler that requires
    [required]. *)
Definition permissions_context (required granted : list string)
  : ExecutionContext Example2.User :=
  {| getHandler :=
       {| IS_PUBLIC_KEY := None; ROLES_KEY := None;
          PERMISSIONS_KEY := Some required; MODULE_PERMISSIONS_KEY := None |};
     getClass := no_metadata;
     getRequest :=
       {| authorization := None;
          user := Some {| Example2.id := "7"; Example2.username := "caller";
                          Example2.email := "caller@example.com";
                          Example2.permissions := Some granted |} |} |}.

Definition module_permissions_context (required : list string)
    (permissions : option (list string)) : ExecutionContext Example3.User :=
  {| getHandler :=
       {| IS_PUBLIC_KEY := None; ROLES_KEY := None; PERMISSIONS_KEY := None;
          MODULE_PERMISSIONS_KEY := Some required |};
     getClass := no_metadata;
     getRequest :=
       {| authorization := None;
          user := Some {| Example3.id := "7"; Example3.username := "caller";
                          Example3.email := "caller@example.com";
                          Example3.permissions := permissions |} |} |}.

(** required = {A, B}: granted = {A} is denied with missing set {B};
    the module scenario of the spec is denied with [orders:refund]. *)
Lemma C2_permissions_guards_all_rule_witness :
  missingPermissions ["A"; "B"] ["A"] = ["B"]
  ∧ Example2.PermissionsGuard.canActivate (permissions_context ["A"; "B"] ["A"])
    = Throw (ForbiddenException
        "Access denied. Missing permissions: B. Your permissions: A")
  ∧ Example3.ModulePermissionsGuard.canActivate
      (module_permissions_context ["A"; "B"] (Some ["A"]))
    = Throw (ForbiddenException "Access denied. Missing permissions: B").
Proof.
  assert (Hne : ["A"; "B"] ≠ @nil string) by discriminate.
  assert (Hmiss : ¬ ∀ r, In r ["A"; "B"] → In r ["A"]).
  { intros H. destruct (H "B") as [Heq | []]; [right; by left | discriminate Heq]. }
  destruct (C2_permissions_guards_all_rule ["A"; "B"] ["A"] Hne)
    as (_ & Hperm & Hmod).
  split; [reflexivity |]. split.
  - exact (proj2 (Hperm (permissions_context ["A"; "B"] ["A"]) _
                    eq_refl eq_refl eq_refl) Hmiss).
  - exact (proj2 (Hmod (module_permissions_context ["A"; "B"] (Some ["A"])) _
                    eq_refl eq_refl eq_refl) Hmiss).
Defined.

Example all_rule_allows_superset :
  Example2.PermissionsGuard.canActivate
    (permissions_context ["A"; "B"] ["A"; "B"; "C"]) = Return true.
Proof. reflexivity. Qed.

Example module_scenario_orders_refund :
  Example3.ModulePermissionsGuard.canActivate
    (module_permissions_context [Example3.ORDERS_REFUND]
       (Some [Example3.ORDERS_LIST; Example3.ORDERS_READ]))
  = Throw (ForbiddenException "Access denied. Missing permissions: orders:refund").
Proof. reflexivity. Qed.

(** ** Preconditions of the authorization guards *)

(** The two 403 messages of the ALL guards: the capability set is not
    there at all, or it is there and does not cover the requirement. *)
Definition MissingCapabilities : HttpException :=
  ForbiddenException "User permissions not found".

(** An identity whose [permissions] array is present and empty is not
    reported as [MissingCapabilities]: [![]] is [false] in JavaScript, so
    the guards go on to the ALL test and report every required token as
    missing. *)
Lemma C3_empty_granted_set_counterexample :
  Example2.PermissionsGuard.canActivate
    (permissions_context [Example2.READ] [])
  = Throw (ForbiddenException
      "Access denied. Missing permissions: read. Your permissions: ")
  ∧ Example2.PermissionsGuard.canActivate
      (permissions_context [Example2.READ] [])
    ≠ Throw MissingCapabilities
  ∧ Example3.ModulePermissionsGuard.canActivate
      (module_permissions_context [Example3.USERS_LIST] (Some []))
    ≠ Throw MissingCapabilities.
Proof. split; [reflexivity | split; discriminate]. Qed.

Lemma PermissionsGuard_no_requirement (context : ExecutionContext Example2.User) :
  no_requirement
    (getAllAndOverride PERMISSIONS_KEY (getHandler context) (getClass context))
  = true →
  Example2.PermissionsGuard.canActivate context = Return true.
Proof. intros H. unfold Example2.PermissionsGuard.canActivate. by rewrite H. Qed.

Lemma ModulePermissionsGuard_no_requirement
    (context : ExecutionContext Example3.User) :
  no_requirement
    (getAllAndOverride MODULE_PERMISSIONS_KEY (getHandler context)
       (getClass context)) = true →
  Example3.ModulePermissionsGuard.canActivate context = Return true.
Proof.
  intros H. unfold Example3.ModulePermissionsGuard.canActivate. by rewrite H.
Qed.

(** The granted set as the guards read it: [user.permissions] of
    [request.user], when both are there. *)
Definition granted2 (request : Request Example2.User) : option (list string) :=
  match user request with
  | Some u => Example2.permissions u
  | None => None
  end.

Definition granted3 (request : Request Example3.User) : option (list string) :=
  match user request with
  | Some u => Example3.permissions u
  | None => None
  end.

Definition granted1 (request : Request Example1.UserData)
  : option (list string) :=
  match user request with
  | Some u => Example1.roles u
  | None => None
  end.

(** The corresponding 403 of [RolesGuard]. *)
Definition MissingRoles : HttpException :=
  ForbiddenException "User roles not found".

Lemma RolesGuard_no_requirement (context : ExecutionContext Example1.UserData) :
  no_requirement
    (getAllAndOverride ROLES_KEY (getHandler context) (getClass context))
  = true →
  Example1.RolesGuard.canActivate context = Return true.
Proof. intros H. unfold Example1.RolesGuard.canActivate. by rewrite H. Qed.

Lemma some_empty_granted (required : list string) :
  Js.some required (λ role, Js.includes [] role) = false.
Proof. induction required as [|r required IH]; [done | exact IH]. Qed.

(** C3 (amended). With no requirement (absent or empty) the authorization
    guards allow whatever the request holds.  With a requirement, an
    absent identity or an absent [permissions] field is denied with the
    permissions-not-found 403; a [permissions] array that is present and
    empty is denied with the other 403, the one that lists the missing
    tokens, here all the required ones.  [RolesGuard] does the same with
    [roles]. *)
Theorem C3_authorization_preconditions :
  (∀ context : ExecutionContext Example2.User,
     let required :=
       getAllAndOverride PERMISSIONS_KEY (getHandler context) (getClass context) in
     (no_requirement required = true →
        Example2.PermissionsGuard.canActivate context = Return true)
     ∧ (no_requirement required = false →
        granted2 (getRequest context) = None →
        Example2.PermissionsGuard.canActivate context = Throw MissingCapabilities)
     ∧ (no_requirement required = false →
        granted2 (getRequest context) = Some [] →
        Example2.PermissionsGuard.canActivate context =
        Throw (ForbiddenException
          ("Access denied. Missing permissions: "
           +:+ Js.join (default [] required) ", " +:+ ". Your permissions: "))))
  ∧ (∀ context : ExecutionContext Example3.User,
     let required :=
       getAllAndOverride MODULE_PERMISSIONS_KEY (getHandler context)
         (getClass context) in
     (no_requirement required = true →
        Example3.ModulePermissionsGuard.canActivate context = Return true)
     ∧ (no_requirement required = false →
        granted3 (getRequest context) = None →
        Example3.ModulePermissionsGuard.canActivate context
        = Throw MissingCapabilities)
     ∧ (no_requirement required = false →
        granted3 (getRequest context) = Some [] →
        Example3.ModulePermissionsGuard.canActivate context =
        Throw (ForbiddenException
          ("Access denied. Missing permissions: "
           +:+ Js.join (default [] required) ", "))))
  ∧ (∀ context : ExecutionContext Example1.UserData,
     let required :=
       getAllAndOverride ROLES_KEY (getHandler context) (getClass context) in
     (no_requirement required = true →
        Example1.RolesGuard.canActivate context = Return true)
     ∧ (no_requirement required = false →
        granted1 (getRequest context) = None →
        Example1.RolesGuard.canActivate context = Throw MissingRoles)
     ∧ (no_requirement required = false →
        granted1 (getRequest context) = Some [] →
        Example1.RolesGuard.canActivate context =
        Throw (ForbiddenException
          ("Access denied. Required roles: "
           +:+ Js.join (default [] required) ", " +:+ ". Your roles: ")))).
Proof.
  refine (conj _ (conj _ _)); intros context required.
  - split; [apply PermissionsGuard_no_requirement |].
    unfold Example2.PermissionsGuard.canActivate, granted2. fold required.
    split; intros Hreq Hg; rewrite Hreq.
    + destruct (user (getRequest context)) as [u|]; [| done]. by rewrite Hg.
    + destruct (user (getRequest context)) as [u|]; [| done]. rewrite Hg.
      assert (Hne : default [] required ≠ []).
      { destruct required as [[|]|]; done. }
      rewrite (every_empty_granted _ Hne), missing_empty_granted. done.
  - split; [apply ModulePermissionsGuard_no_requirement |].
    unfold Example3.ModulePermissionsGuard.canActivate, granted3. fold required.
    split; intros Hreq Hg; rewrite Hreq.
    + destruct (user (getRequest context)) as [u|]; [| done]. by rewrite Hg.
    + destruct (user (getRequest context)) as [u|]; [| done]. rewrite Hg.
      assert (Hne : default [] required ≠ []).
      { destruct required as [[|]|]; done. }
      rewrite (every_empty_granted _ Hne), missing_empty_granted. done.
  - split; [apply RolesGuard_no_requirement |].
    unfold Example1.RolesGuard.canActivate, granted1. fold required.
    split; intros Hreq Hg; rewrite Hreq.
    + destruct (user (getRequest context)) as [u|]; [| done]. by rewrite Hg.
    + destruct (user (getRequest context)) as [u|]; [| done]. rewrite Hg.
      rewrite (some_empty_granted _). done.
Qed.

(** A required set [read] met by: no identity, and an empty array. *)
Definition anonymous_context (required : list string)
  : ExecutionContext Example2.User :=
  {| getHandler :=
       {| IS_PUBLIC_KEY := None; ROLES_KEY := None;
          PERMISSIONS_KEY := Some required; MODULE_PERMISSIONS_KEY := None |};
     getClass := no_metadata;
     getRequest := {| authorization := None; user := None |} |}.

Lemma C3_authorization_preconditions_witness :
  Example2.PermissionsGuard.canActivate (anonymous_context []) = Return true
  ∧ Example2.PermissionsGuard.canActivate (anonymous_context [Example2.READ])
    = Throw MissingCapabilities
  ∧ Example2.PermissionsGuard.canActivate
      (permissions_context [Example2.READ; Example2.CREATE] [])
    = Throw (ForbiddenException
        "Access denied. Missing permissions: read, create. Your permissions: ")
  ∧ Example3.ModulePermissionsGuard.canActivate
      (module_permissions_context [] None) = Return true
  ∧ Example3.ModulePermissionsGuard.canActivate
      (module_permissions_context [Example3.USERS_LIST] None)
    = Throw MissingCapabilities
  ∧ Example3.ModulePermissionsGuard.canActivate
      (module_permissions_context [Example3.USERS_LIST] (Some []))
    = Throw (ForbiddenException "Access denied. Missing permissions: users:list").
Proof.
  destruct C3_authorization_preconditions as (H2 & H3 & _).
  refine (conj _ (conj _ (conj _ (conj _ (conj _ _))))).
  - exact (proj1 (H2 (anonymous_context [])) eq_refl).
  - exact (proj1 (proj2 (H2 (anonymous_context [Example2.READ])))
             eq_refl eq_refl).
  - exact (proj2 (proj2 (H2 (permissions_context
             [Example2.READ; Example2.CREATE] []))) eq_refl eq_refl).
  - exact (proj1 (H3 (module_permissions_context [] None)) eq_refl).
  - exact (proj1 (proj2 (H3 (module_permissions_context
             [Example3.USERS_LIST] None))) eq_refl eq_refl).
  - exact (proj2 (proj2 (H3 (module_permissions_context
             [Example3.USERS_LIST] (Some [])))) eq_refl eq_refl).
Defined.

(** ** The bearer header *)

Fixpoint no_space (s : string) : bool :=
  match s with
  | EmptyString => true
  | String c rest => negb (Ascii.eqb c " "%char) && no_space rest
  end.

Lemma split_space_nonempty (s : string) : Js.split_space s ≠ [].
Proof.
  induction s as [|c s IH]; cbn; [done |].
  destruct (Ascii.eqb c " "); [done |]. by destruct (Js.split_space s).
Qed.

(** Up to the first space the header is one segment; the rest is split
    on its own. *)
Lemma split_space_app (a rest : string) :
  no_space a = true →
  Js.split_space (a +:+ " " +:+ rest) = a :: Js.split_space rest.
Proof.
  induction a as [|c a IH]; simpl; [done |].
  intros [Hc Ha]%andb_true_iff. apply negb_true_iff in Hc. rewrite Hc.
  by rewrite (IH Ha).
Qed.

Lemma split_space_single (a : string) :
  no_space a = true → Js.split_space a = [a].
Proof.
  induction a as [|c a IH]; simpl; [done |].
  intros [Hc Ha]%andb_true_iff. apply negb_true_iff in Hc. rewrite Hc.
  by rewrite (IH Ha).
Qed.

Section AuthGuardFacts.
Context {User : Type}.
Variable validateToken : string → option User.

Definition protected (context : ExecutionContext User) : Prop :=
  truthy_flag
    (getAllAndOverride IS_PUBLIC_KEY (getHandler context) (getClass context))
  = false.

Definition with_user (request : Request User) (u : User) : Request User :=
  {| authorization := authorization request; user := Some u |}.

(** On a protected route the guard is decided by the extracted token. *)
Lemma canActivate_protected (context : ExecutionContext User) :
  protected context →
  AuthGuard.canActivate validateToken context =
  let request := getRequest context in
  match AuthGuard.extractTokenFromHeader request with
  | Some (String c s) =>
      match validateToken (String c s) with
      | Some u => (Return true, with_user request u)
      | None =>
          (Throw (UnauthorizedException "Token validation failed"), request)
      end
  | _ => (Throw (UnauthorizedException "Authentication token not found"), request)
  end.
Proof.
  intros Hprot. unfold AuthGuard.canActivate. rewrite Hprot. cbn zeta.
  destruct (AuthGuard.extractTokenFromHeader (getRequest context))
    as [[|c s]|]; cbn; try done.
  unfold AuthGuard.try_block. by destruct (validateToken (String c s)).
Qed.

Lemma canActivate_public (context : ExecutionContext User) :
  ¬ protected context →
  AuthGuard.canActivate validateToken context = (Return true, getRequest context).
Proof.
  unfold protected, AuthGuard.canActivate.
  by destruct (truthy_flag _).
Qed.

Lemma extract_bearer_segments (request : Request User) (a rest : string) :
  no_space a = true →
  authorization request = Some ("Bearer " +:+ a +:+ " " +:+ rest) →
  AuthGuard.extractTokenFromHeader request = Some a.
Proof.
  intros Ha Hh. unfold AuthGuard.extractTokenFromHeader. rewrite Hh.
  change ("Bearer " +:+ a +:+ " " +:+ rest)
    with ("Bearer" +:+ " " +:+ (a +:+ " " +:+ rest)).
  cbn [Js.truthy_string negb String.append].
  rewrite (split_space_app "Bearer" _ eq_refl), (split_space_app a rest Ha).
  done.
Qed.
End AuthGuardFacts.

(** C9. Bearer-header parsing on a protected route: the header is split
    on spaces and exactly the second segment is the token, whatever
    follows it ([Bearer a b] gives [a]); a header that is only [Bearer],
    or [Bearer] followed by an empty second segment, is rejected with the
    token-not-found 401 and no token is looked up. *)
Theorem C9_bearer_header_edge_cases {User : Type}
    (validateToken : string → option User) (context : ExecutionContext User) :
  protected context →
  let request := getRequest context in
  (∀ a rest : string,
     no_space a = true →
     authorization request = Some ("Bearer " +:+ a +:+ " " +:+ rest) →
     AuthGuard.extractTokenFromHeader request = Some a
     ∧ (a ≠ "" →
        AuthGuard.canActivate validateToken context =
        match validateToken a with
        | Some u => (Return true, with_user request u)
        | None =>
            (Throw (UnauthorizedException "Token validation failed"), request)
        end))
  ∧ (authorization request = Some "Bearer"
     ∨ authorization request = Some "Bearer "
     ∨ (∃ rest, authorization request = Some ("Bearer  " +:+ rest)) →
     AuthGuard.canActivate validateToken context
     = (Throw (UnauthorizedException "Authentication token not found"), request)).
Proof.
  intros Hprot request. split.
  - intros a rest Ha Hh.
    pose proof (extract_bearer_segments request a rest Ha Hh) as Hex.
    split; [exact Hex |]. intros Hne.
    rewrite (canActivate_protected validateToken context Hprot).
    fold request. cbn zeta. rewrite Hex. by destruct a.
  - intros Hh. rewrite (canActivate_protected validateToken context Hprot).
    fold request. cbn zeta. unfold AuthGuard.extractTokenFromHeader.
    destruct Hh as [-> | [-> | [rest ->]]]; [done | done |].
    change ("Bearer  " +:+ rest) with ("Bearer" +:+ " " +:+ ("" +:+ " " +:+ rest)).
    cbn [Js.truthy_string negb].
    rewrite (split_space_app "Bearer" _ eq_refl), (split_space_app "" rest eq_refl).
    done.
Qed.

(** A protected Example 2 route that requires [read], reached with the
    given authorization header and no identity yet. *)
Definition posts_context (header : option string)
  : ExecutionContext Example2.User :=
  {| getHandler :=
       {| IS_PUBLIC_KEY := None; ROLES_KEY := None;
          PERMISSIONS_KEY := Some [Example2.READ];
          MODULE_PERMISSIONS_KEY := None |};
     getClass := no_metadata;
     getRequest := {| authorization := header; user := None |} |}.

Lemma C9_bearer_header_edge_cases_witness :
  AuthGuard.extractTokenFromHeader
    (getRequest (posts_context (Some "Bearer token-creator b"))) = Some "token-creator"
  ∧ fst (Example2.AuthGuard_canActivate
           (posts_context (Some "Bearer token-creator b"))) = Return true
  ∧ fst (Example2.AuthGuard_canActivate (posts_context (Some "Bearer")))
    = Throw (UnauthorizedException "Authentication token not found")
  ∧ fst (Example2.AuthGuard_canActivate (posts_context (Some "Bearer ")))
    = Throw (UnauthorizedException "Authentication token not found").
Proof.
  pose proof (λ h, C9_bearer_header_edge_cases Example2.validateToken
                     (posts_context h) eq_refl) as H.
  refine (conj _ (conj _ (conj _ _))).
  - exact (proj1 (proj1 (H (Some "Bearer token-creator b"))
                    "token-creator" "b" eq_refl eq_refl)).
  - unfold Example2.AuthGuard_canActivate.
    rewrite (proj2 (proj1 (H (Some "Bearer token-creator b"))
                      "token-creator" "b" eq_refl eq_refl)); [| discriminate].
    reflexivity.
  - unfold Example2.AuthGuard_canActivate.
    by rewrite (proj2 (H (Some "Bearer")) (or_introl eq_refl)).
  - unfold Example2.AuthGuard_canActivate.
    by rewrite (proj2 (H (Some "Bearer ")) (or_intror (or_introl eq_refl))).
Defined.

(** ** Authentication failures *)

Section AuthenticationFailures.
Context {User : Type}.
Variable validateToken : string → option User.
Variable context : ExecutionContext User.
Hypothesis Hprotected : protected context.

Lemma missing_header_is_missing_token :
  authorization (getRequest context) = None →
  AuthGuard.canActivate validateToken context
  = (Throw (UnauthorizedException "Authentication token not found"),
     getRequest context).
Proof.
  intros Hh. rewrite (canActivate_protected validateToken context Hprotected).
  cbn zeta. unfold AuthGuard.extractTokenFromHeader. by rewrite Hh.
Qed.

(** Any first segment other than exactly [Bearer], such as [Basic] or
    [bearer], gives the same error. *)
Lemma wrong_scheme_is_missing_token (header scheme : string) (rest : list string) :
  authorization (getRequest context) = Some header →
  Js.split_space header = scheme :: rest →
  scheme ≠ "Bearer" →
  AuthGuard.canActivate validateToken context
  = (Throw (UnauthorizedException "Authentication token not found"),
     getRequest context).
Proof.
  intros Hh Hsplit Hscheme.
  rewrite (canActivate_protected validateToken context Hprotected).
  cbn zeta. unfold AuthGuard.extractTokenFromHeader. rewrite Hh, Hsplit.
  apply String.eqb_neq in Hscheme. rewrite Hscheme.
  destruct (negb _); by destruct rest.
Qed.

(** A token the store does not know: the guard throws inside its own
    [try], so what leaves [canActivate] is the exception of the [catch]. *)
Lemma unknown_token_is_validation_failed (token : string) :
  AuthGuard.extractTokenFromHeader (getRequest context) = Some token →
  token ≠ "" →
  validateToken token = None →
  AuthGuard.canActivate validateToken context
  = (Throw (UnauthorizedException "Token validation failed"), getRequest context).
Proof.
  intros Hex Hne Hnone.
  rewrite (canActivate_protected validateToken context Hprotected).
  cbn zeta. rewrite Hex. destruct token; [done |]. by rewrite Hnone.
Qed.

(** When authentication throws, the chain ends with that exception
    whatever the authorization guard is: it is not run. *)
Lemma authentication_failure_short_circuits (e : HttpException)
    (authorize : ExecutionContext User → Result bool) :
  fst (AuthGuard.canActivate validateToken context) = Throw e →
  fst (useGuards (AuthGuard.canActivate validateToken) authorize context)
  = Throw e.
Proof.
  unfold useGuards.
  destruct (AuthGuard.canActivate validateToken context) as [[[]|e'] request];
    cbn; congruence.
Qed.
End AuthenticationFailures.

(** The two 401s that leave the authentication guard.  For a token the
    store does not know, the guard throws [Invalid authentication token]
    inside its own [try]; the [catch] replaces it, so the exception that
    reaches the caller is the one below. *)
Definition MissingToken : HttpException :=
  UnauthorizedException "Authentication token not found".
Definition InvalidToken : HttpException :=
  UnauthorizedException "Token validation failed".

(** C4. On a protected route, a missing authorization header or a first
    segment other than exactly [Bearer] gives the missing-token error, a
    token the store does not know gives the invalid-token error; both
    are 401s, and the chain ends with them whatever the authorization
    guard is, which therefore does not run. *)
Theorem C4_authentication_failures {User : Type}
    (validateToken : string → option User)
    (authorize : ExecutionContext User → Result bool)
    (context : ExecutionContext User) :
  protected context →
  let request := getRequest context in
  let chain := useGuards (AuthGuard.canActivate validateToken) authorize context in
  (authorization request = None → chain = (Throw MissingToken, request))
  ∧ (∀ header scheme rest,
       authorization request = Some header →
       Js.split_space header = scheme :: rest →
       scheme ≠ "Bearer" →
       chain = (Throw MissingToken, request))
  ∧ (∀ token,
       AuthGuard.extractTokenFromHeader request = Some token →
       token ≠ "" →
       validateToken token = None →
       chain = (Throw InvalidToken, request))
  ∧ statusCode MissingToken = 401
  ∧ statusCode InvalidToken = 401
  ∧ MissingToken ≠ InvalidToken.
Proof.
  intros Hprot request chain. subst chain. unfold useGuards.
  refine (conj _ (conj _ (conj _ (conj eq_refl (conj eq_refl _))))).
  - intros Hh.
    by rewrite (missing_header_is_missing_token validateToken context Hprot Hh).
  - intros header scheme rest Hh Hsplit Hscheme.
    by rewrite (wrong_scheme_is_missing_token validateToken context Hprot
                  header scheme rest Hh Hsplit Hscheme).
  - intros token Hex Hne Hnone.
    by rewrite (unknown_token_is_validation_failed validateToken context Hprot
                  token Hex Hne Hnone).
  - discriminate.
Qed.

Lemma C4_authentication_failures_witness :
  Example2.guards (posts_context None)
  = (Throw MissingToken, getRequest (posts_context None))
  ∧ Example2.guards (posts_context (Some "Basic dXNlcjpwdw=="))
    = (Throw MissingToken, getRequest (posts_context (Some "Basic dXNlcjpwdw==")))
  ∧ Example2.guards (posts_context (Some "bearer token-read-only"))
    = (Throw MissingToken,
       getRequest (posts_context (Some "bearer token-read-only")))
  ∧ Example2.guards (posts_context (Some "Bearer token-unknown"))
    = (Throw InvalidToken, getRequest (posts_context (Some "Bearer token-unknown"))).
Proof.
  pose proof (λ h, C4_authentication_failures Example2.validateToken
                     Example2.PermissionsGuard.canActivate
                     (posts_context h) eq_refl) as H.
  refine (conj _ (conj _ (conj _ _))).
  - exact (proj1 (H None) eq_refl).
  - refine (proj1 (proj2 (H (Some "Basic dXNlcjpwdw=="))) _ "Basic" _
              eq_refl eq_refl _). discriminate.
  - refine (proj1 (proj2 (H (Some "bearer token-read-only"))) _ "bearer" _
              eq_refl eq_refl _). discriminate.
  - refine (proj1 (proj2 (proj2 (H (Some "Bearer token-unknown"))))
              "token-unknown" eq_refl _ eq_refl). discriminate.
Defined.

(** The exception the guard throws in its [try] for an unknown token is
    not the one the caller receives. *)
Remark invalid_token_message_is_replaced :
  AuthGuard.try_block Example2.validateToken
    (getRequest (posts_context (Some "Bearer token-unknown"))) "token-unknown"
  = Throw (UnauthorizedException "Invalid authentication token")
  ∧ fst (Example2.AuthGuard_canActivate
           (posts_context (Some "Bearer token-unknown")))
    = Throw (UnauthorizedException "Token validation failed").
Proof. split; reflexivity. Qed.

(** ** Public routes *)

Definition marked_public {User} (context : ExecutionContext User) : Prop :=
  truthy_flag
    (getAllAndOverride IS_PUBLIC_KEY (getHandler context) (getClass context))
  = true.

(** A handler carrying both [@Public()] and [@RequirePermissions(read)],
    called without an authorization header. *)
Definition public_with_requirement : ExecutionContext Example2.User :=
  {| getHandler :=
       {| IS_PUBLIC_KEY := Some true; ROLES_KEY := None;
          PERMISSIONS_KEY := Some [Example2.READ];
          MODULE_PERMISSIONS_KEY := None |};
     getClass := no_metadata;
     getRequest := {| authorization := None; user := None |} |}.

(** No controller of the repository declares such a route.  Were one
    declared, authentication would be skipped and the chain would then be
    stopped by [PermissionsGuard] with a 403, as the authorization guards
    never look at the public flag. *)
Remark public_route_with_requirement_is_denied :
  marked_public public_with_requirement
  ∧ Example2.guards public_with_requirement
    = (Throw (ForbiddenException "User permissions not found"),
       getRequest public_with_requirement).
Proof. split; reflexivity. Qed.

Lemma useGuards_public {User} (validateToken : string → option User)
    (authorize : ExecutionContext User → Result bool)
    (context : ExecutionContext User) :
  marked_public context →
  authorize context = Return true →
  useGuards (AuthGuard.canActivate validateToken) authorize context
  = (Return true, getRequest context).
Proof.
  intros Hpub Hauth. unfold useGuards.
  rewrite canActivate_public; [| unfold protected; by rewrite Hpub].
  destruct context as [handler class request]. cbn in *. by rewrite Hauth.
Qed.

(** C8. On a route marked public, which carries no required capability
    set, the guard chain succeeds for every header and every token
    store; the authentication guard returns [true] at once and the
    request is left as it was found, so no identity is populated. *)
Theorem C8_public_route_bypass :
  (∀ (User : Type) (validateToken : string → option User)
     (context : ExecutionContext User),
     marked_public context →
     AuthGuard.canActivate validateToken context
     = (Return true, getRequest context))
  ∧ (∀ context : ExecutionContext Example2.User,
       marked_public context →
       no_requirement
         (getAllAndOverride PERMISSIONS_KEY (getHandler context)
            (getClass context)) = true →
       Example2.guards context = (Return true, getRequest context))
  ∧ (∀ context : ExecutionContext Example3.User,
       marked_public context →
       no_requirement
         (getAllAndOverride MODULE_PERMISSIONS_KEY (getHandler context)
            (getClass context)) = true →
       Example3.guards context = (Return true, getRequest context))
  ∧ (∀ (validateToken : string → option Example1.UserData)
       (context : ExecutionContext Example1.UserData),
       marked_public context →
       no_requirement
         (getAllAndOverride ROLES_KEY (getHandler context) (getClass context))
       = true →
       useGuards (AuthGuard.canActivate validateToken)
         Example1.RolesGuard.canActivate context
       = (Return true, getRequest context)).
Proof.
  refine (conj _ (conj _ (conj _ _))).
  - intros User validateToken context Hpub.
    apply canActivate_public. unfold protected. by rewrite Hpub.
  - intros context Hpub Hnone. apply useGuards_public; [done |].
    by apply PermissionsGuard_no_requirement.
  - intros context Hpub Hnone. apply useGuards_public; [done |].
    by apply ModulePermissionsGuard_no_requirement.
  - intros validateToken context Hpub Hnone. apply useGuards_public; [done |].
    by apply RolesGuard_no_requirement.
Qed.

(** [GET /example2/posts/public] as declared in [PostsController]:
    [@Public()] on the handler, the guards on the class, no requirement. *)
Definition getPublicPosts_context (header : option string)
  : ExecutionContext Example2.User :=
  {| getHandler :=
       {| IS_PUBLIC_KEY := Some true; ROLES_KEY := None;
          PERMISSIONS_KEY := None; MODULE_PERMISSIONS_KEY := None |};
     getClass := no_metadata;
     getRequest := {| authorization := header; user := None |} |}.

Lemma C8_public_route_bypass_witness :
  Example2.AuthGuard_canActivate (getPublicPosts_context None)
  = (Return true, {| authorization := None; user := None |})
  ∧ Example2.guards (getPublicPosts_context (Some "Basic dXNlcjpwdw=="))
    = (Return true,
       {| authorization := Some "Basic dXNlcjpwdw=="; user := None |}).
Proof.
  split.
  - exact (proj1 C8_public_route_bypass Example2.User Example2.validateToken
             (getPublicPosts_context None) eq_refl).
  - exact (proj1 (proj2 C8_public_route_bypass)
             (getPublicPosts_context (Some "Basic dXNlcjpwdw==")) eq_refl eq_refl).
Defined.

(** ** Token strings *)

Fixpoint count_dash (s : string) : nat :=
  match s with
  | EmptyString => 0
  | String c rest => (if Ascii.eqb c "-"%char then 1 else 0) + count_dash rest
  end.

Lemma count_dash_app (s1 s2 : string) :
  count_dash (s1 +:+ s2) = count_dash s1 + count_dash s2.
Proof. induction s1 as [|c s1 IH]; simpl; [done |]. rewrite IH. lia. Qed.

(** A minted token has at least three dashes: the one of [token-] and
    the two around the clock reading. *)
Lemma token_string_dashes (username : string) (now : N) (rnd : string) :
  (3 ≤ count_dash (token_string username now rnd))%nat.
Proof.
  unfold token_string. rewrite !count_dash_app.
  change (count_dash "token-") with 1. change (count_dash "-") with 1. lia.
Qed.

Lemma own_property_key {R} (obj : list (string * R)) (key : string) (r : R) :
  Js.own_property obj key = Some r → In key (map fst obj).
Proof.
  induction obj as [|[k v] obj IH]; cbn; [done |].
  destruct (String.eqb k key) eqn:Hk.
  - apply String.eqb_eq in Hk. by left.
  - right. by apply IH.
Qed.

Lemma own_property_none {R} (obj : list (string * R)) (key : string) :
  ¬ In key (map fst obj) → Js.own_property obj key = None.
Proof.
  intros Hnot. destruct (Js.own_property obj key) as [r|] eqn:H; [| done].
  exfalso. apply Hnot. by apply (own_property_key obj key r).
Qed.

(** No table key and no [Object.prototype] name has three dashes. *)
Definition few_dashes (keys : list string) : Prop :=
  Forall (λ k, (count_dash k ≤ 2)%nat) keys.

Lemma few_dashes_not_minted (keys : list string)
    (username : string) (now : N) (rnd : string) :
  few_dashes keys → ¬ In (token_string username now rnd) keys.
Proof.
  intros Hfew Hin. unfold few_dashes in Hfew. rewrite Forall_forall in Hfew.
  apply (proj2 (list_elem_of_In _ _)) in Hin. apply Hfew in Hin.
  pose proof (token_string_dashes username now rnd). lia.
Qed.

Lemma ObjectPrototype_few_dashes : few_dashes Js.ObjectPrototype.
Proof. unfold few_dashes. repeat constructor. Qed.

Lemma predefinedTokens2_few_dashes :
  few_dashes (map fst Example2.AuthService.predefinedTokens).
Proof. unfold few_dashes. repeat constructor. Qed.

Lemma predefinedTokens3_few_dashes :
  few_dashes (map fst Example3.AuthService.predefinedTokens).
Proof. unfold few_dashes. repeat constructor. Qed.

(** Without a [tokenMap] entry a minted token resolves to [null]. *)
Lemma get_or_null_minted {R} (obj : list (string * R))
    (username : string) (now : N) (rnd : string) :
  few_dashes (map fst obj) →
  Js.get_or_null obj (token_string username now rnd) = Js.Null.
Proof.
  intros Hfew. unfold Js.get_or_null.
  rewrite own_property_none by by apply few_dashes_not_minted.
  destruct (Js.includes _ _) eqn:Hinc; [| done].
  apply includes_In in Hinc.
  by apply few_dashes_not_minted in Hinc; [| apply ObjectPrototype_few_dashes].
Qed.

(** ** [tokenMap] over time

    [generateToken] is the only method that writes [tokenMap], and it
    only ever calls [set]; the later states of the map are those reached
    by further [set]s. *)

Section TokenMap.
Context {R : Type}.

Definition set_all (later : list (string * R)) (tokenMap : gmap string R)
  : gmap string R :=
  fold_left (λ m entry, <[entry.1 := entry.2]> m) later tokenMap.

Lemma set_all_other (later : list (string * R)) (tokenMap : gmap string R)
    (token : string) :
  Forall (λ entry, entry.1 ≠ token) later →
  set_all later tokenMap !! token = tokenMap !! token.
Proof.
  revert tokenMap. induction later as [|[t r] later IH]; intros m Hne; [done |].
  inversion_clear Hne as [|? ? Ht Hlater]. cbn in *.
  rewrite (IH _ Hlater). by apply lookup_insert_ne.
Qed.

Lemma set_all_keeps (later : list (string * R)) (tokenMap : gmap string R)
    (token : string) :
  is_Some (tokenMap !! token) → is_Some (set_all later tokenMap !! token).
Proof.
  revert tokenMap. induction later as [|[t r] later IH]; intros m Hm; [done |].
  cbn. apply IH. destruct (decide (t = token)) as [-> | Hne].
  - rewrite lookup_insert_eq. by eexists.
  - by rewrite lookup_insert_ne.
Qed.

Lemma set_all_from (later : list (string * R)) (tokenMap : gmap string R)
    (token : string) :
  is_Some (set_all later tokenMap !! token) →
  is_Some (tokenMap !! token) ∨ In token (map fst later).
Proof.
  revert tokenMap. induction later as [|[t r] later IH]; intros m Hm; [by left |].
  cbn in *. destruct (IH _ Hm) as [Hins | Hin]; [| by right; right].
  destruct (decide (t = token)) as [-> | Hne]; [by right; left |].
  left. by rewrite lookup_insert_ne in Hins.
Qed.
End TokenMap.

(** *** Example 2 *)

(** A call [generateToken(username, permissions)] together with the
    clock reading and the random suffix it runs with. *)
Record Issue2 : Type := {
  now2 : N;
  rnd2 : string;
  username2 : string;
  permissions2 : list string
}.

Definition issue2 (tokenMap : gmap string Example2.AuthService.TokenUser)
    (call : Issue2) : string * gmap string Example2.AuthService.TokenUser :=
  Example2.AuthService.generateToken (now2 call) (rnd2 call) (username2 call)
    (permissions2 call) tokenMap.

(** [tokenMap] after the calls, in order. *)
Definition after2 (calls : list Issue2)
    (tokenMap : gmap string Example2.AuthService.TokenUser)
  : gmap string Example2.AuthService.TokenUser :=
  fold_left (λ m call, snd (issue2 m call)) calls tokenMap.

(** The tokens the calls return (the string does not depend on the map). *)
Definition tokens2 (calls : list Issue2) : list string :=
  map (λ call, fst (issue2 ∅ call)) calls.

Definition entry2 (call : Issue2) : string * Example2.AuthService.TokenUser :=
  (token_string (username2 call) (now2 call) (rnd2 call),
   {| Example2.AuthService.token_username := username2 call;
      Example2.AuthService.token_permissions := permissions2 call |}).

Lemma after2_set_all calls tokenMap :
  after2 calls tokenMap = set_all (map entry2 calls) tokenMap.
Proof.
  revert tokenMap. induction calls as [|c calls IH]; intros m; [done |].
  cbn. apply IH.
Qed.

Lemma tokens2_entries calls : tokens2 calls = map fst (map entry2 calls).
Proof. unfold tokens2. rewrite map_map. done. Qed.

Lemma Forall_fst_ne {R} (entries : list (string * R)) (token : string) :
  ¬ In token (map fst entries) → Forall (λ entry, entry.1 ≠ token) entries.
Proof.
  intros Hnot. apply Forall_forall. intros entry Hin Heq. apply Hnot.
  apply in_map_iff. exists entry. split; [done |]. by apply list_elem_of_In.
Qed.

Lemma validateToken2_stable calls tokenMap token :
  ¬ In token (tokens2 calls) →
  Example2.AuthService.validateToken (after2 calls tokenMap) token
  = Example2.AuthService.validateToken tokenMap token.
Proof.
  intros Hnot. unfold Example2.AuthService.validateToken.
  rewrite after2_set_all, set_all_other; [done |].
  apply Forall_fst_ne. by rewrite <- tokens2_entries.
Qed.

(** *** Example 3 *)

Record Issue3 : Type := {
  now3 : N;
  rnd3 : string;
  username3 : string;
  role3 : string;
  permissions3 : list string
}.

Definition issue3 (tokenMap : gmap string Example3.AuthService.TokenUser)
    (call : Issue3) : string * gmap string Example3.AuthService.TokenUser :=
  Example3.AuthService.generateToken (now3 call) (rnd3 call) (username3 call)
    (role3 call) (permissions3 call) tokenMap.

Definition after3 (calls : list Issue3)
    (tokenMap : gmap string Example3.AuthService.TokenUser)
  : gmap string Example3.AuthService.TokenUser :=
  fold_left (λ m call, snd (issue3 m call)) calls tokenMap.

Definition tokens3 (calls : list Issue3) : list string :=
  map (λ call, fst (issue3 ∅ call)) calls.

Definition entry3 (call : Issue3) : string * Example3.AuthService.TokenUser :=
  (token_string (username3 call) (now3 call) (rnd3 call),
   {| Example3.AuthService.token_username := username3 call;
      Example3.AuthService.token_role := role3 call;
      Example3.AuthService.token_permissions := permissions3 call |}).

Lemma after3_set_all calls tokenMap :
  after3 calls tokenMap = set_all (map entry3 calls) tokenMap.
Proof.
  revert tokenMap. induction calls as [|c calls IH]; intros m; [done |].
  cbn. apply IH.
Qed.

Lemma tokens3_entries calls : tokens3 calls = map fst (map entry3 calls).
Proof. unfold tokens3. rewrite map_map. done. Qed.

Lemma validateToken3_stable calls tokenMap token :
  ¬ In token (tokens3 calls) →
  Example3.AuthService.validateToken (after3 calls tokenMap) token
  = Example3.AuthService.validateToken tokenMap token.
Proof.
  intros Hnot. unfold Example3.AuthService.validateToken.
  rewrite after3_set_all, set_all_other; [done |].
  apply Forall_fst_ne. by rewrite <- tokens3_entries.
Qed.

(** ** Resolution order of [validateToken] *)

Lemma validateToken2_dynamic_first tokenMap token stored :
  tokenMap !! token = Some stored →
  Example2.AuthService.validateToken tokenMap token = Js.Own stored.
Proof. intros H. unfold Example2.AuthService.validateToken. by rewrite H. Qed.

Lemma validateToken2_static_fallback
    (tokenMap : gmap string Example2.AuthService.TokenUser) token :
  tokenMap !! token = None →
  Example2.AuthService.validateToken tokenMap token
  = Js.get_or_null Example2.AuthService.predefinedTokens token.
Proof. intros H. unfold Example2.AuthService.validateToken. by rewrite H. Qed.

Lemma validateToken3_dynamic_first tokenMap token stored :
  tokenMap !! token = Some stored →
  Example3.AuthService.validateToken tokenMap token = Js.Own stored.
Proof. intros H. unfold Example3.AuthService.validateToken. by rewrite H. Qed.

Lemma validateToken3_static_fallback
    (tokenMap : gmap string Example3.AuthService.TokenUser) token :
  tokenMap !! token = None →
  Example3.AuthService.validateToken tokenMap token
  = Js.get_or_null Example3.AuthService.predefinedTokens token.
Proof. intros H. unfold Example3.AuthService.validateToken. by rewrite H. Qed.

(** A token that is in neither store and is not a name inherited from
    [Object.prototype] resolves to [null]. *)
Lemma get_or_null_unknown {R} (obj : list (string * R)) (token : string) :
  ¬ In token (map fst obj) →
  ¬ In token Js.ObjectPrototype →
  Js.get_or_null obj token = Js.Null.
Proof.
  intros Hobj Hproto. unfold Js.get_or_null.
  rewrite (own_property_none obj token Hobj).
  destruct (Js.includes _ _) eqn:Hinc; [| done].
  by apply includes_In in Hinc.
Qed.

(** C5, at the token [constructor].  It is in neither store, yet
    [predefinedTokens[token]] finds the member every object literal
    inherits, which is truthy, so [validateToken] returns it instead of
    [null]. *)
Theorem C5_inherited_property_is_not_null :
  (∅ : gmap string Example2.AuthService.TokenUser) !! "constructor" = None
  ∧ Js.own_property Example2.AuthService.predefinedTokens "constructor" = None
  ∧ Example2.AuthService.validateToken ∅ "constructor"
    = Js.Inherited "constructor"
  ∧ Example2.AuthService.validateToken ∅ "constructor" ≠ Js.Null
  ∧ Js.own_property Example3.AuthService.predefinedTokens "constructor" = None
  ∧ Example3.AuthService.validateToken ∅ "constructor"
    = Js.Inherited "constructor".
Proof. repeat split; done. Qed.

(** ** Issue, then resolve *)

(** C10. If [generateToken(u, p)] returns [t], a later [validateToken(t)]
    on the same store returns the record stored at issuance, provided no
    later [generateToken] call returns the same string; and a [tokenMap]
    hit is returned whatever the predefined table holds under that key. *)
Theorem C10_issue_resolve_round_trip :
  (∀ tokenMap now rnd u p later,
     let issued := Example2.AuthService.generateToken now rnd u p tokenMap in
     ¬ In (fst issued) (tokens2 later) →
     Example2.AuthService.validateToken (after2 later (snd issued)) (fst issued)
     = Js.Own {| Example2.AuthService.token_username := u;
                 Example2.AuthService.token_permissions := p |})
  ∧ (∀ tokenMap token stored,
       tokenMap !! token = Some stored →
       Example2.AuthService.validateToken tokenMap token = Js.Own stored)
  ∧ (∀ tokenMap now rnd u role p later,
       let issued :=
         Example3.AuthService.generateToken now rnd u role p tokenMap in
       ¬ In (fst issued) (tokens3 later) →
       Example3.AuthService.validateToken (after3 later (snd issued)) (fst issued)
       = Js.Own {| Example3.AuthService.token_username := u;
                   Example3.AuthService.token_role := role;
                   Example3.AuthService.token_permissions := p |})
  ∧ (∀ tokenMap token stored,
       tokenMap !! token = Some stored →
       Example3.AuthService.validateToken tokenMap token = Js.Own stored).
Proof.
  refine (conj _ (conj validateToken2_dynamic_first
            (conj _ validateToken3_dynamic_first))).
  - intros tokenMap now rnd u p later issued Hfresh.
    rewrite (validateToken2_stable later _ _ Hfresh).
    apply validateToken2_dynamic_first. apply lookup_insert_eq.
  - intros tokenMap now rnd u role p later issued Hfresh.
    rewrite (validateToken3_stable later _ _ Hfresh).
    apply validateToken3_dynamic_first. apply lookup_insert_eq.
Qed.

Definition reader_login : Issue2 :=
  {| now2 := 1735000000000; rnd2 := "k3x9q"; username2 := "reader";
     permissions2 := [Example2.READ] |}.

Definition creator_login : Issue2 :=
  {| now2 := 1735000000001; rnd2 := "k3x9q"; username2 := "creator";
     permissions2 := [Example2.READ; Example2.CREATE] |}.

Definition support_login : Issue3 :=
  {| now3 := 1735000000000; rnd3 := "p0"; username3 := "customer_service";
     role3 := "Customer Service";
     permissions3 := Example3.AuthService.customer_service_permissions |}.

Definition readonly_login : Issue3 :=
  {| now3 := 1735000000000; rnd3 := "p0"; username3 := "readonly";
     role3 := "Read Only User";
     permissions3 := Example3.AuthService.readonly_permissions |}.

Lemma C10_issue_resolve_round_trip_witness :
  fst (issue2 ∅ reader_login) = "token-reader-1735000000000-k3x9q"
  ∧ Example2.AuthService.validateToken
      (after2 [creator_login] (snd (issue2 ∅ reader_login)))
      "token-reader-1735000000000-k3x9q"
    = Js.Own {| Example2.AuthService.token_username := "reader";
                Example2.AuthService.token_permissions := [Example2.READ] |}
  ∧ Example2.AuthService.validateToken
      {[ "token-read-only" :=
           {| Example2.AuthService.token_username := "intruder";
              Example2.AuthService.token_permissions := [] |} ]}
      "token-read-only"
    = Js.Own {| Example2.AuthService.token_username := "intruder";
                Example2.AuthService.token_permissions := [] |}
  ∧ Example3.AuthService.validateToken
      (after3 [readonly_login] (snd (issue3 ∅ support_login)))
      (fst (issue3 ∅ support_login))
    = Js.Own {| Example3.AuthService.token_username := "customer_service";
                Example3.AuthService.token_role := "Customer Service";
                Example3.AuthService.token_permissions :=
                  Example3.AuthService.customer_service_permissions |}.
Proof.
  destruct C10_issue_resolve_round_trip as (H2 & Hfirst2 & H3 & _).
  refine (conj _ (conj _ (conj _ _))).
  - vm_compute. reflexivity.
  - apply (H2 ∅ 1735000000000%N "k3x9q" "reader" [Example2.READ]
             [creator_login]).
    vm_compute. intros [H | []]. discriminate H.
  - apply Hfirst2. apply lookup_singleton_eq.
  - apply (H3 ∅ 1735000000000%N "p0" "customer_service" "Customer Service"
             Example3.AuthService.customer_service_permissions [readonly_login]).
    vm_compute. intros [H | []]. discriminate H.
Defined.

(** ** Token lifetime *)

(** Every token returned by a later call is a minted string. *)
Lemma tokens2_minted calls token :
  In token (tokens2 calls) → (3 ≤ count_dash token)%nat.
Proof.
  unfold tokens2. rewrite in_map_iff. intros (call & <- & _).
  apply token_string_dashes.
Qed.

Lemma tokens3_minted calls token :
  In token (tokens3 calls) → (3 ≤ count_dash token)%nat.
Proof.
  unfold tokens3. rewrite in_map_iff. intros (call & <- & _).
  apply token_string_dashes.
Qed.

Lemma few_dashes_In keys key :
  few_dashes keys → In key keys → (count_dash key ≤ 2)%nat.
Proof.
  unfold few_dashes. rewrite Forall_forall. intros H Hin.
  apply H. by apply list_elem_of_In.
Qed.

(** [tokenMap] entries are never removed, so a token that resolves keeps
    resolving. *)
Lemma validateToken2_never_null calls tokenMap token :
  Example2.AuthService.validateToken tokenMap token ≠ Js.Null →
  Example2.AuthService.validateToken (after2 calls tokenMap) token ≠ Js.Null.
Proof.
  unfold Example2.AuthService.validateToken. rewrite after2_set_all.
  destruct (tokenMap !! token) as [stored|] eqn:Hm.
  - intros _.
    destruct (set_all_keeps (map entry2 calls) tokenMap token) as [r ->];
      [by eexists | done].
  - intros Hstatic. by destruct (set_all _ _ !! token).
Qed.

Lemma validateToken3_never_null calls tokenMap token :
  Example3.AuthService.validateToken tokenMap token ≠ Js.Null →
  Example3.AuthService.validateToken (after3 calls tokenMap) token ≠ Js.Null.
Proof.
  unfold Example3.AuthService.validateToken. rewrite after3_set_all.
  destruct (tokenMap !! token) as [stored|] eqn:Hm.
  - intros _.
    destruct (set_all_keeps (map entry3 calls) tokenMap token) as [r ->];
      [by eexists | done].
  - intros Hstatic. by destruct (set_all _ _ !! token).
Qed.

(** Starting from the empty map of a fresh process, a predefined token
    is never shadowed: no minted string equals a predefined key. *)
Lemma predefined2_always_resolves calls key stored :
  Js.own_property Example2.AuthService.predefinedTokens key = Some stored →
  Example2.AuthService.validateToken (after2 calls ∅) key = Js.Own stored.
Proof.
  intros Hown. rewrite validateToken2_stable.
  - rewrite validateToken2_static_fallback by apply lookup_empty.
    unfold Js.get_or_null. by rewrite Hown.
  - intros Hin%tokens2_minted.
    apply own_property_key in Hown.
    apply (few_dashes_In _ _ predefinedTokens2_few_dashes) in Hown. lia.
Qed.

Lemma predefined3_always_resolves calls key stored :
  Js.own_property Example3.AuthService.predefinedTokens key = Some stored →
  Example3.AuthService.validateToken (after3 calls ∅) key = Js.Own stored.
Proof.
  intros Hown. rewrite validateToken3_stable.
  - rewrite validateToken3_static_fallback by apply lookup_empty.
    unfold Js.get_or_null. by rewrite Hown.
  - intros Hin%tokens3_minted.
    apply own_property_key in Hown.
    apply (few_dashes_In _ _ predefinedTokens3_few_dashes) in Hown. lia.
Qed.

(** The window in which a JWT of Example 1 verifies. *)
Lemma verifyToken_window (now later : N) (user : Example1.UserData) :
  Example1.verifyToken later (Example1.generateToken now user)
  = if (now / 1000 + 86400 <=? later / 1000)%N then None else Some user.
Proof.
  unfold Example1.verifyToken, Example1.generateToken, Example1.sign,
    Example1.verifyAsync.
  rewrite String.eqb_refl. cbn [negb].
  change Example1.expiresIn with 86400%N.
  destruct (_ <=? _)%N; [done |]. by destruct user.
Qed.

Definition reader : Example1.UserData :=
  {| Example1.id := "4"; Example1.username := "reader";
     Example1.email := "reader@example.com";
     Example1.roles := Some [Example1.READ] |}.

(** In Example 1 the token is a JWT signed with [expiresIn: '24h']: the
    token issued to [reader] at time 0 verifies at once and is rejected
    24 hours later, in the same process. *)
Lemma C6_jwt_expires_counterexample :
  ∃ response,
    Example1.login 0 "reader" "password123" = Return response
    ∧ Example1.verifyToken 0 (Example1.login_token response) = Some reader
    ∧ Example1.verifyToken (24 * 60 * 60 * 1000)
        (Example1.login_token response) = None.
Proof. eexists. repeat split; reflexivity. Qed.

(** C6 (amended). In Examples 2 and 3 nothing expires or is evicted: a
    token that resolves keeps resolving after any later [generateToken]
    calls, and to the same result when none of them returns the same
    string; a predefined token resolves to its predefined record in every
    state reached from the empty map; and in the empty map of a fresh
    process a minted token resolves to [null].  In Example 1 a token
    verifies exactly while the clock, in whole seconds, is less than
    86400 s past the issue time. *)
Theorem C6_token_lifetime :
  (∀ calls tokenMap token,
     (Example2.AuthService.validateToken tokenMap token ≠ Js.Null →
      Example2.AuthService.validateToken (after2 calls tokenMap) token ≠ Js.Null)
     ∧ (¬ In token (tokens2 calls) →
        Example2.AuthService.validateToken (after2 calls tokenMap) token
        = Example2.AuthService.validateToken tokenMap token))
  ∧ (∀ calls key stored,
       Js.own_property Example2.AuthService.predefinedTokens key = Some stored →
       Example2.AuthService.validateToken (after2 calls ∅) key = Js.Own stored)
  ∧ (∀ tokenMap call,
       Example2.AuthService.validateToken ∅ (fst (issue2 tokenMap call)) = Js.Null)
  ∧ (∀ calls tokenMap token,
     (Example3.AuthService.validateToken tokenMap token ≠ Js.Null →
      Example3.AuthService.validateToken (after3 calls tokenMap) token ≠ Js.Null)
     ∧ (¬ In token (tokens3 calls) →
        Example3.AuthService.validateToken (after3 calls tokenMap) token
        = Example3.AuthService.validateToken tokenMap token))
  ∧ (∀ calls key stored,
       Js.own_property Example3.AuthService.predefinedTokens key = Some stored →
       Example3.AuthService.validateToken (after3 calls ∅) key = Js.Own stored)
  ∧ (∀ tokenMap call,
       Example3.AuthService.validateToken ∅ (fst (issue3 tokenMap call)) = Js.Null)
  ∧ (∀ now later user,
       Example1.verifyToken later (Example1.generateToken now user) = Some user
       ↔ (later / 1000 < now / 1000 + 86400)%N).
Proof.
  refine (conj _ (conj predefined2_always_resolves (conj _
            (conj _ (conj predefined3_always_resolves (conj _ _)))))).
  - intros calls tokenMap token. split.
    + apply validateToken2_never_null.
    + apply validateToken2_stable.
  - intros tokenMap call.
    rewrite validateToken2_static_fallback by apply lookup_empty.
    apply get_or_null_minted, predefinedTokens2_few_dashes.
  - intros calls tokenMap token. split.
    + apply validateToken3_never_null.
    + apply validateToken3_stable.
  - intros tokenMap call.
    rewrite validateToken3_static_fallback by apply lookup_empty.
    apply get_or_null_minted, predefinedTokens3_few_dashes.
  - intros now later user. rewrite verifyToken_window.
    destruct (N.leb_spec (now / 1000 + 86400) (later / 1000)).
    + split; [done | lia].
    + split; [done | done].
Qed.

Lemma C6_token_lifetime_witness :
  Example2.AuthService.validateToken
    (after2 [reader_login; creator_login] ∅) "token-read-only"
  = Js.Own {| Example2.AuthService.token_username := "reader";
              Example2.AuthService.token_permissions := [Example2.READ] |}
  ∧ Example2.AuthService.validateToken
      (after2 [creator_login] (snd (issue2 ∅ reader_login)))
      "token-reader-1735000000000-k3x9q"
    = Example2.AuthService.validateToken (snd (issue2 ∅ reader_login))
        "token-reader-1735000000000-k3x9q"
  ∧ Example3.AuthService.validateToken
      (after3 [support_login] ∅) "token-readonly"
    = Js.Own {| Example3.AuthService.token_username := "readonly";
                Example3.AuthService.token_role := "Read Only User";
                Example3.AuthService.token_permissions :=
                  Example3.AuthService.readonly_permissions |}
  ∧ Example1.verifyToken 86399999 (Example1.generateToken 0 reader)
    = Some reader.
Proof.
  destruct C6_token_lifetime as (H2 & Hpre2 & _ & _ & Hpre3 & _ & Hjwt).
  refine (conj _ (conj _ (conj _ _))).
  - apply Hpre2. reflexivity.
  - apply (proj2 (H2 [creator_login] (snd (issue2 ∅ reader_login))
                    "token-reader-1735000000000-k3x9q")).
    vm_compute. intros [H | []]. discriminate H.
  - apply Hpre3. reflexivity.
  - apply Hjwt. vm_compute. reflexivity.
Defined.

(** ** Login *)

Lemma validateUser1_find (username password : string) :
  match Example1.validateUser username password with
  | Some found =>
      Example1.username found = username ∧ In found Example1.users
  | None =>
      ∀ candidate, In candidate Example1.users →
                   Example1.username candidate ≠ username
  end.
Proof.
  unfold Example1.validateUser.
  destruct (List.find _ _) as [found|] eqn:Hfind.
  - apply find_some in Hfind as [Hin Heq]. by apply String.eqb_eq in Heq.
  - intros candidate Hin. apply (find_none _ _ Hfind) in Hin.
    by apply String.eqb_neq in Hin.
Qed.

Lemma validateUser2_exact (username password : string)
    (found : Example2.AuthService.User) :
  Example2.AuthService.validateUser username password = Some found →
  Example2.AuthService.username found = username
  ∧ Example2.AuthService.password found = password.
Proof.
  unfold Example2.AuthService.validateUser.
  intros [_ [Hu Hp]%andb_true_iff]%find_some.
  by apply String.eqb_eq in Hu, Hp.
Qed.

Lemma validateUser3_exact (username password : string)
    (found : Example3.AuthService.User) :
  Example3.AuthService.validateUser username password = Some found →
  Example3.AuthService.username found = username
  ∧ Example3.AuthService.password found = password.
Proof.
  unfold Example3.AuthService.validateUser.
  intros [_ [Hu Hp]%andb_true_iff]%find_some.
  by apply String.eqb_eq in Hu, Hp.
Qed.

Lemma validateUser2_Some_iff (username password : string)
    (entry : Example2.AuthService.User) :
  Example2.AuthService.validateUser username password = Some entry
  ↔ In entry Example2.AuthService.users
    ∧ Example2.AuthService.username entry = username
    ∧ Example2.AuthService.password entry = password.
Proof.
  split.
  - intros H. split; [by apply find_some in H as [Hin _] |].
    by apply validateUser2_exact.
  - intros (Hin & <- & <-).
    repeat (destruct Hin as [<- | Hin]; [reflexivity |]). destruct Hin.
Qed.

Lemma validateUser3_Some_iff (username password : string)
    (entry : Example3.AuthService.User) :
  Example3.AuthService.validateUser username password = Some entry
  ↔ In entry Example3.AuthService.users
    ∧ Example3.AuthService.username entry = username
    ∧ Example3.AuthService.password entry = password.
Proof.
  split.
  - intros H. split; [by apply find_some in H as [Hin _] |].
    by apply validateUser3_exact.
  - intros (Hin & <- & <-).
    repeat (destruct Hin as [<- | Hin]; [reflexivity |]). destruct Hin.
Qed.

Lemma validateUser1_Some_iff (username password : string)
    (entry : Example1.UserData) :
  Example1.validateUser username password = Some entry
  ↔ In entry Example1.users ∧ Example1.username entry = username.
Proof.
  split.
  - intros H. pose proof (validateUser1_find username password) as Hfind.
    rewrite H in Hfind. tauto.
  - intros (Hin & <-).
    repeat (destruct Hin as [<- | Hin]; [reflexivity |]). destruct Hin.
Qed.

(** C7. [validateUser] looks the user up in the static directory by
    exact username: it returns an entry exactly when the directory lists
    it under that username (Example 1) or under that username and that
    password (Examples 2 and 3).  In Example 1 the password plays no
    part, so a login as [reader] succeeds with any password and returns
    a token that resolves to the roles {read}; in Examples 2 and 3 the
    stored password must be equal to the one given. *)
Theorem C7_login_validation :
  (∀ username password,
     match Example1.validateUser username password with
     | Some found =>
         Example1.username found = username ∧ In found Example1.users
     | None =>
         ∀ candidate, In candidate Example1.users →
                      Example1.username candidate ≠ username
     end)
  ∧ (∀ username password entry,
       Example1.validateUser username password = Some entry
       ↔ In entry Example1.users ∧ Example1.username entry = username)
  ∧ (∀ username password password',
       Example1.validateUser username password
       = Example1.validateUser username password')
  ∧ (∀ now password,
       ∃ response identity,
         Example1.login now "reader" password = Return response
         ∧ Example1.verifyToken now (Example1.login_token response)
           = Some identity
         ∧ Example1.username identity = "reader"
         ∧ Example1.roles identity = Some [Example1.READ])
  ∧ (∀ username password entry,
       Example2.AuthService.validateUser username password = Some entry
       ↔ In entry Example2.AuthService.users
         ∧ Example2.AuthService.username entry = username
         ∧ Example2.AuthService.password entry = password)
  ∧ (∀ username password entry,
       Example3.AuthService.validateUser username password = Some entry
       ↔ In entry Example3.AuthService.users
         ∧ Example3.AuthService.username entry = username
         ∧ Example3.AuthService.password entry = password).
Proof.
  refine (conj validateUser1_find (conj validateUser1_Some_iff (conj _ (conj _
            (conj validateUser2_Some_iff validateUser3_Some_iff))))).
  - reflexivity.
  - intros now password. exists
      {| Example1.login_message := "Login successful";
         Example1.login_token := Example1.generateToken now reader;
         Example1.login_username := "reader";
         Example1.login_roles := Some [Example1.READ] |}, reader.
    split; [reflexivity |]. cbn [Example1.login_token].
    rewrite verifyToken_window.
    destruct (N.leb_spec (now / 1000 + 86400) (now / 1000)); [lia | done].
Qed.

Definition reader2 : Example2.AuthService.User :=
  {| Example2.AuthService.username := "reader";
     Example2.AuthService.password := "password123";
     Example2.AuthService.permissions := [Example2.READ] |}.

Definition readonly3 : Example3.AuthService.User :=
  {| Example3.AuthService.username := "readonly";
     Example3.AuthService.password := "password123";
     Example3.AuthService.role := "Read Only User";
     Example3.AuthService.permissions :=
       Example3.AuthService.readonly_permissions |}.

(** The listed credentials find their entry in each directory; in
    Example 2 another password finds nothing, in Example 1 it does not
    matter. *)
Lemma C7_login_validation_witness :
  Example2.AuthService.validateUser "reader" "password123" = Some reader2
  ∧ Example2.AuthService.validateUser "reader" "letmein" = None
  ∧ Example3.AuthService.validateUser "readonly" "password123" = Some readonly3
  ∧ Example1.validateUser "reader" "letmein" = Some reader
  ∧ ∃ response identity,
      Example1.login 1735000000000 "reader" "letmein" = Return response
      ∧ Example1.verifyToken 1735000000000 (Example1.login_token response)
        = Some identity
      ∧ Example1.roles identity = Some [Example1.READ].
Proof.
  destruct C7_login_validation as (_ & Hiff1 & _ & Hlogin & Hiff2 & Hiff3).
  refine (conj _ (conj _ (conj _ (conj _ _)))).
  - apply (proj2 (Hiff2 "reader" "password123" reader2)).
    split; [vm_compute; tauto | split; reflexivity].
  - destruct (Example2.AuthService.validateUser "reader" "letmein")
      as [found|] eqn:Hfound; [| reflexivity].
    apply (proj1 (Hiff2 "reader" "letmein" found)) in Hfound
      as (Hin & _ & Hpassword).
    vm_compute in Hin.
    destruct Hin as [<- | [<- | [<- | [<- | []]]]]; discriminate Hpassword.
  - apply (proj2 (Hiff3 "readonly" "password123" readonly3)).
    split; [vm_compute; tauto | split; reflexivity].
  - apply (proj2 (Hiff1 "reader" "letmein" reader)).
    split; [vm_compute; tauto | reflexivity].
  - destruct (Hlogin 1735000000000%N "letmein")
      as (response & identity & Hresp & Hverify & _ & Hroles).
    exists response, identity. by repeat split.
Defined.

(** In Example 2 the same login needs the stored password; with it, the
    token returned resolves to the permissions {read}. *)
Example login2_wrong_password :
  fst (Example2.login 1735000000000 "k3x9q" "reader" "letmein" ∅)
  = Throw (UnauthorizedException "Invalid username or password").
Proof. reflexivity. Qed.

Example login2_reader :
  ∃ response tokenMap,
    Example2.login 1735000000000 "k3x9q" "reader" "password123" ∅
    = (Return response, tokenMap)
    ∧ Example2.AuthService.validateToken tokenMap
        (Example2.login_token response)
      = Js.Own {| Example2.AuthService.token_username := "reader";
                  Example2.AuthService.token_permissions := [Example2.READ] |}.
Proof.
  eexists _, _. split; [reflexivity |].
  apply validateToken2_dynamic_first, lookup_insert_eq.
Qed.

(** The guard of Example 2 resolves tokens in its own four-entry [Map],
    so it does not accept the token [login] has just returned. *)
Example login2_token_rejected_by_guard :
  fst (Example2.AuthGuard_canActivate
         (posts_context (Some "Bearer token-reader-1735000000000-k3x9q")))
  = Throw (UnauthorizedException "Token validation failed").
Proof. reflexivity. Qed.


(** * Further properties of the guards and services *)

(** ** What [extractTokenFromHeader] accepts *)

(** The first segment of a split is free of spaces, and the string is
    that segment alone or that segment, a space, and the string the other
    segments come from. *)
Lemma split_space_inv (s a : string) (segs : list string) :
  Js.split_space s = a :: segs →
  no_space a = true
  ∧ match segs with
    | [] => s = a
    | _ :: _ => ∃ s', s = a +:+ " " +:+ s' ∧ Js.split_space s' = segs
    end.
Proof.
  revert a segs. induction s as [|c s IH]; intros a segs; simpl.
  - intros [= <- <-]. done.
  - destruct (Ascii.eqb c " ") eqn:Hc.
    + apply Ascii.eqb_eq in Hc as ->. intros [= <- <-]. split; [done |].
      destruct (Js.split_space s) as [|seg segs'] eqn:Hs.
      * by apply split_space_nonempty in Hs.
      * exists s. by rewrite Hs.
    + destruct (Js.split_space s) as [|seg segs'] eqn:Hs.
      { by apply split_space_nonempty in Hs. }
      intros [= <- <-]. destruct (IH seg segs' eq_refl) as [Hseg Hrest].
      split; [simpl; by rewrite Hc, Hseg |].
      destruct segs' as [|seg' segs''].
      * by rewrite Hrest.
      * destruct Hrest as (s' & -> & Hs'). by exists s'.
Qed.

Lemma extract_bearer_token {User : Type} (request : Request User) (t : string) :
  no_space t = true →
  authorization request = Some ("Bearer " +:+ t) →
  AuthGuard.extractTokenFromHeader request = Some t.
Proof.
  intros Ht Hh. unfold AuthGuard.extractTokenFromHeader. rewrite Hh.
  change ("Bearer " +:+ t) with ("Bearer" +:+ " " +:+ t).
  cbn [Js.truthy_string negb String.append].
  by rewrite (split_space_app "Bearer" _ eq_refl), (split_space_single t Ht).
Qed.

(** X1. [extractTokenFromHeader] returns [t] exactly for the headers
    [Bearer t] and [Bearer t ...], [t] being free of spaces: the scheme
    is matched exactly and at the very start, one space separates it from
    the token, and the token returned never contains a space. *)
Theorem extractTokenFromHeader_iff {User : Type} (request : Request User)
    (t : string) :
  AuthGuard.extractTokenFromHeader request = Some t
  ↔ no_space t = true
    ∧ (authorization request = Some ("Bearer " +:+ t)
       ∨ ∃ rest, authorization request = Some ("Bearer " +:+ t +:+ " " +:+ rest)).
Proof.
  split.
  - unfold AuthGuard.extractTokenFromHeader.
    destruct (authorization request) as [header|]; [| done].
    destruct (negb _); [done |].
    destruct (Js.split_space header) as [|type [|token segs]] eqn:Hsplit;
      [done | done |].
    destruct (String.eqb type "Bearer") eqn:Htype; [| done].
    apply String.eqb_eq in Htype as ->. intros [= ->].
    apply split_space_inv in Hsplit as [_ (s' & -> & Hs')].
    apply split_space_inv in Hs' as [Ht Hrest]. split; [done |].
    destruct segs as [|seg segs].
    + left. by rewrite Hrest.
    + right. destruct Hrest as (s'' & -> & _). by exists s''.
  - intros [Ht [Hh | [rest Hh]]].
    + by apply extract_bearer_token.
    + by apply (extract_bearer_segments request t rest).
Qed.

(** ** What the authentication guard does to the request *)

Section AuthGuardOutcome.
Context {User : Type}.
Variable validateToken : string → option User.

(** The same context around another request object. *)
Definition with_request (context : ExecutionContext User)
    (request : Request User) : ExecutionContext User :=
  {| getHandler := getHandler context; getClass := getClass context;
     getRequest := request |}.

(** The request with its [user] property set beforehand (or cleared). *)
Definition preset_user (request : Request User) (u0 : option User)
  : Request User :=
  {| authorization := authorization request; user := u0 |}.

Lemma extractTokenFromHeader_header (request request' : Request User) :
  authorization request' = authorization request →
  AuthGuard.extractTokenFromHeader request'
  = AuthGuard.extractTokenFromHeader request.
Proof. intros H. unfold AuthGuard.extractTokenFromHeader. by rewrite H. Qed.

Lemma protected_with_request (context : ExecutionContext User)
    (request : Request User) :
  protected (with_request context request) ↔ protected context.
Proof. done. Qed.

(** X2. On a protected route the guard lets the request through exactly when
    the header yields a non-empty token that [validateToken] resolves;
    the request then carries the resolved user and the same header. *)
Theorem canActivate_allows_iff (context : ExecutionContext User)
    (request' : Request User) :
  protected context →
  AuthGuard.canActivate validateToken context = (Return true, request')
  ↔ ∃ token u,
      AuthGuard.extractTokenFromHeader (getRequest context) = Some token
      ∧ token ≠ ""
      ∧ validateToken token = Some u
      ∧ request' = with_user (getRequest context) u.
Proof.
  intros Hprot. rewrite (canActivate_protected validateToken context Hprot).
  cbn zeta.
  destruct (AuthGuard.extractTokenFromHeader (getRequest context))
    as [[|c s]|] eqn:Hex.
  - split; [done |]. intros (token & u & [= <-] & Hne & _). done.
  - destruct (validateToken (String c s)) as [u|] eqn:Hv.
    + split.
      * intros [= <-]. by exists (String c s), u.
      * intros (token & u' & [= <-] & _ & Hv' & ->).
        rewrite Hv in Hv'. by injection Hv' as ->.
    + split; [done |]. intros (token & u & [= <-] & _ & Hv' & _). congruence.
  - split; [done |]. by intros (token & u & [=] & _).
Qed.

(** X3. Whatever the route and the header: the guard never answers [false],
    every exception it throws is a 401 and leaves the request as it was,
    and the authorization header is never touched. *)
Theorem canActivate_frame (context : ExecutionContext User) :
  let result := AuthGuard.canActivate validateToken context in
  fst result ≠ Return false
  ∧ authorization (snd result) = authorization (getRequest context)
  ∧ (∀ e, fst result = Throw e →
          statusCode e = 401 ∧ snd result = getRequest context)
  ∧ (fst result = Return true →
     user (snd result) = user (getRequest context)
     ∨ ∃ token, token ≠ "" ∧ validateToken token = user (snd result)).
Proof.
  cbn zeta. unfold AuthGuard.canActivate.
  destruct (truthy_flag _).
  - cbn. split; [done |]. split; [done |]. split; [done |]. by left.
  - cbn zeta.
    destruct (AuthGuard.extractTokenFromHeader (getRequest context))
      as [[|c s]|]; cbn.
    + split; [done |]. split; [done |]. split; [| done]. by intros e [= <-].
    + unfold AuthGuard.try_block.
      destruct (validateToken (String c s)) as [u|] eqn:Hv; cbn.
      * split; [done |]. split; [done |]. split; [done |].
        intros _. right. exists (String c s). by rewrite Hv.
      * split; [done |]. split; [done |]. split; [| done].
        by intros e [= <-].
    + split; [done |]. split; [done |]. split; [| done]. by intros e [= <-].
Qed.

Lemma canActivate_keeps_header (context : ExecutionContext User) :
  authorization (snd (AuthGuard.canActivate validateToken context))
  = authorization (getRequest context).
Proof.
  unfold AuthGuard.canActivate. destruct (truthy_flag _); [done |].
  cbn zeta. destruct (negb _); [done |]. unfold AuthGuard.try_block.
  by destruct (validateToken _).
Qed.

(** X4. Running the guard again on the request it produced changes nothing. *)
Theorem canActivate_idempotent (context : ExecutionContext User) :
  let result := AuthGuard.canActivate validateToken context in
  AuthGuard.canActivate validateToken (with_request context (snd result))
  = result.
Proof.
  cbn zeta.
  destruct (truthy_flag (getAllAndOverride IS_PUBLIC_KEY (getHandler context)
                           (getClass context))) eqn:Hflag.
  - assert (Hpub : ¬ protected context).
    { unfold protected. by rewrite Hflag. }
    rewrite (canActivate_public validateToken context Hpub). cbn [snd].
    rewrite (canActivate_public validateToken
               (with_request context (getRequest context)));
      [done | by rewrite protected_with_request].
  - assert (Hprot : protected context) by done.
    assert (Hsame : authorization
                      (snd (AuthGuard.canActivate validateToken context))
                    = authorization (getRequest context)).
    { apply canActivate_keeps_header. }
    rewrite (canActivate_protected validateToken
               (with_request context _)) by by rewrite protected_with_request.
    cbn zeta. cbn [with_request getRequest].
    rewrite (extractTokenFromHeader_header _ _ Hsame).
    rewrite (canActivate_protected validateToken context Hprot). cbn zeta.
    destruct (AuthGuard.extractTokenFromHeader (getRequest context))
      as [[|c s]|]; cbn [snd]; try done.
    destruct (validateToken (String c s)); done.
Qed.

(** X5. On a protected route the identity comes from the token alone: a
    [user] property already on the request is overwritten, so the
    verdict of the chain is the same whatever it was. *)
Theorem useGuards_ignores_preset_user
    (authorize : ExecutionContext User → Result bool)
    (context : ExecutionContext User) (u0 : option User) :
  protected context →
  fst (useGuards (AuthGuard.canActivate validateToken) authorize
         (with_request context (preset_user (getRequest context) u0)))
  = fst (useGuards (AuthGuard.canActivate validateToken) authorize context).
Proof.
  intros Hprot. unfold useGuards.
  rewrite (canActivate_protected validateToken (with_request context _))
    by by rewrite protected_with_request.
  rewrite (canActivate_protected validateToken context Hprot).
  cbn zeta. cbn [with_request getRequest getHandler getClass].
  rewrite (extractTokenFromHeader_header (getRequest context)
             (preset_user (getRequest context) u0) eq_refl).
  destruct (AuthGuard.extractTokenFromHeader (getRequest context))
    as [[|c s]|]; try done.
  destruct (validateToken (String c s)) as [u|]; [| done].
  unfold with_user, preset_user. cbn [authorization].
  by destruct (authorize _) as [[]|].
Qed.
End AuthGuardOutcome.

(** A protected Example 2 route with the given requirement, header and
    [user] property. *)
Definition route2_context (required : list string) (header : option string)
    (u0 : option Example2.User) : ExecutionContext Example2.User :=
  {| getHandler :=
       {| IS_PUBLIC_KEY := None; ROLES_KEY := None;
          PERMISSIONS_KEY := Some required; MODULE_PERMISSIONS_KEY := None |};
     getClass := no_metadata;
     getRequest := {| authorization := header; user := u0 |} |}.

Definition creator_user : Example2.User :=
  {| Example2.id := "2"; Example2.username := "creator";
     Example2.email := "creator@example.com";
     Example2.permissions := Some [Example2.READ; Example2.CREATE] |}.

Definition forged_admin : Example2.User :=
  {| Example2.id := "0"; Example2.username := "forged";
     Example2.email := "forged@example.com";
     Example2.permissions :=
       Some [Example2.READ; Example2.CREATE; Example2.UPDATE; Example2.DELETE] |}.

Lemma canActivate_allows_iff_witness :
  Example2.AuthGuard_canActivate
    (route2_context [Example2.CREATE] (Some "Bearer token-creator") None)
  = (Return true,
     {| authorization := Some "Bearer token-creator";
        user := Some creator_user |}).
Proof.
  apply (proj2 (canActivate_allows_iff Example2.validateToken
                  (route2_context [Example2.CREATE]
                     (Some "Bearer token-creator") None) _ eq_refl)).
  exists "token-creator", creator_user.
  split; [reflexivity |]. split; [discriminate |]. split; reflexivity.
Defined.

(** A request that arrives with a full-access [user] already set and the
    read-only token is judged by the token. *)
Lemma useGuards_ignores_preset_user_witness :
  fst (Example2.guards
         (route2_context [Example2.DELETE] (Some "Bearer token-read-only")
            (Some forged_admin)))
  = fst (Example2.guards
           (route2_context [Example2.DELETE] (Some "Bearer token-read-only")
              None)).
Proof.
  exact (useGuards_ignores_preset_user Example2.validateToken
           Example2.PermissionsGuard.canActivate
           (route2_context [Example2.DELETE] (Some "Bearer token-read-only") None)
           (Some forged_admin) eq_refl).
Defined.

(** ** The chain as a whole *)

Section Chain.
Context {User : Type}.
Variable validateToken : string → option User.
Variable authorize : ExecutionContext User → Result bool.

(** On a protected route the chain allows exactly when authentication
    resolves the token and the authorization guard allows the request
    that carries the resolved user. *)
Theorem useGuards_allows_iff (context : ExecutionContext User)
    (request' : Request User) :
  protected context →
  useGuards (AuthGuard.canActivate validateToken) authorize context
  = (Return true, request')
  ↔ ∃ token u,
      AuthGuard.extractTokenFromHeader (getRequest context) = Some token
      ∧ token ≠ ""
      ∧ validateToken token = Some u
      ∧ request' = with_user (getRequest context) u
      ∧ authorize (with_request context request') = Return true.
Proof.
  intros Hprot. unfold useGuards.
  rewrite (canActivate_protected validateToken context Hprot). cbn zeta.
  destruct (AuthGuard.extractTokenFromHeader (getRequest context))
    as [[|c s]|] eqn:Hex.
  - split; [done |]. by intros (token & u & [= <-] & Hne & _).
  - destruct (validateToken (String c s)) as [u|] eqn:Hv.
    + fold (with_request context (with_user (getRequest context) u)).
      split.
      * destruct (authorize _) as [[]|e] eqn:Hz; [| done | done].
        intros [= <-]. by exists (String c s), u.
      * intros (token & u' & [= <-] & _ & Hv' & -> & Hz).
        rewrite Hv in Hv'. injection Hv' as <-. by rewrite Hz.
    + split; [done |]. intros (token & u & [= <-] & _ & Hv' & _). congruence.
  - split; [done |]. by intros (token & u & [=] & _).
Qed.

(** X6. The chain never ends in an authorization error for a request that
    failed authentication: a 403 means the token was resolved. *)
Theorem useGuards_forbidden_after_authentication
    (context : ExecutionContext User) (e : HttpException) :
  protected context →
  fst (useGuards (AuthGuard.canActivate validateToken) authorize context)
  = Throw e →
  statusCode e = 403 →
  ∃ token u,
    AuthGuard.extractTokenFromHeader (getRequest context) = Some token
    ∧ validateToken token = Some u
    ∧ snd (useGuards (AuthGuard.canActivate validateToken) authorize context)
      = with_user (getRequest context) u.
Proof.
  intros Hprot. unfold useGuards.
  rewrite (canActivate_protected validateToken context Hprot). cbn zeta.
  destruct (AuthGuard.extractTokenFromHeader (getRequest context))
    as [[|c s]|]; try (by intros [= <-]).
  destruct (validateToken (String c s)) as [u|] eqn:Hv;
    [| by intros [= <-]].
  intros _ _. exists (String c s), u. split; [done |]. split; [done |].
  by destruct (authorize _) as [[]|].
Qed.
End Chain.

(** *** Example 2: [AuthGuard] then [PermissionsGuard] *)

Lemma PermissionsGuard_allows_iff (context : ExecutionContext Example2.User)
    (required : list string) (u : Example2.User) :
  getAllAndOverride PERMISSIONS_KEY (getHandler context) (getClass context)
    = Some required →
  required ≠ [] →
  user (getRequest context) = Some u →
  Example2.PermissionsGuard.canActivate context = Return true
  ↔ ∃ granted, Example2.permissions u = Some granted
               ∧ ∀ p, In p required → In p granted.
Proof.
  intros Hreq Hne Hu. destruct (Example2.permissions u) as [granted|] eqn:Hp.
  - rewrite (PermissionsGuard_eval context required granted u Hreq Hne Hu Hp).
    pose proof (every_includes_iff required granted) as Hall.
    destruct (Js.every required _); split.
    + intros _. exists granted. split; [done |]. by apply Hall.
    + done.
    + done.
    + intros (granted' & [= <-] & Hsub). by apply Hall in Hsub.
  - unfold Example2.PermissionsGuard.canActivate.
    rewrite Hreq, (no_requirement_nonempty _ Hne), Hu, Hp.
    split; [done |]. by intros (granted & [=] & _).
Qed.

(** X7. On a protected Example 2 route with a non-empty requirement, the
    chain allows exactly the requests whose header carries one of the
    tokens of the guard's table, the user stored under it holding every
    required permission; that user is then attached to the request. *)
Theorem guards2_allows_iff (context : ExecutionContext Example2.User)
    (required : list string) (request' : Request Example2.User) :
  protected context →
  getAllAndOverride PERMISSIONS_KEY (getHandler context) (getClass context)
    = Some required →
  required ≠ [] →
  Example2.guards context = (Return true, request')
  ↔ ∃ token u granted,
      AuthGuard.extractTokenFromHeader (getRequest context) = Some token
      ∧ Example2.users !! token = Some u
      ∧ Example2.permissions u = Some granted
      ∧ (∀ p, In p required → In p granted)
      ∧ request' = with_user (getRequest context) u.
Proof.
  intros Hprot Hreq Hne. unfold Example2.guards, Example2.AuthGuard_canActivate.
  rewrite (useGuards_allows_iff _ _ context request' Hprot). split.
  - intros (token & u & Hex & _ & Hv & -> & Hz).
    apply (PermissionsGuard_allows_iff (with_request context (with_user (getRequest context) u)) required u Hreq Hne eq_refl) in Hz
      as (granted & Hp & Hsub).
    by exists token, u, granted.
  - intros (token & u & granted & Hex & Hv & Hp & Hsub & ->).
    exists token, u. split; [done |].
    split; [by intros -> |]. split; [done |]. split; [done |].
    apply (PermissionsGuard_allows_iff (with_request context (with_user (getRequest context) u)) required u Hreq Hne eq_refl).
    by exists granted.
Qed.

Lemma guards2_allows_iff_witness :
  Example2.guards
    (route2_context [Example2.CREATE] (Some "Bearer token-creator") None)
  = (Return true,
     {| authorization := Some "Bearer token-creator";
        user := Some creator_user |}).
Proof.
  apply (proj2 (guards2_allows_iff
                  (route2_context [Example2.CREATE]
                     (Some "Bearer token-creator") None)
                  [Example2.CREATE] _ eq_refl eq_refl
                  ltac:(discriminate))).
  exists "token-creator", creator_user, [Example2.READ; Example2.CREATE].
  split; [reflexivity |]. split; [reflexivity |]. split; [reflexivity |].
  split; [| reflexivity].
  intros p [<- | []]. right. by left.
Defined.

(** *** Example 3: [AuthGuard] then [ModulePermissionsGuard] *)

Lemma ModulePermissionsGuard_allows_iff
    (context : ExecutionContext Example3.User)
    (required : list string) (u : Example3.User) :
  getAllAndOverride MODULE_PERMISSIONS_KEY (getHandler context)
    (getClass context) = Some required →
  required ≠ [] →
  user (getRequest context) = Some u →
  Example3.ModulePermissionsGuard.canActivate context = Return true
  ↔ ∃ granted, Example3.permissions u = Some granted
               ∧ ∀ p, In p required → In p granted.
Proof.
  intros Hreq Hne Hu. destruct (Example3.permissions u) as [granted|] eqn:Hp.
  - rewrite (ModulePermissionsGuard_eval context required granted u
               Hreq Hne Hu Hp).
    pose proof (every_includes_iff required granted) as Hall.
    destruct (Js.every required _); split.
    + intros _. exists granted. split; [done |]. by apply Hall.
    + done.
    + done.
    + intros (granted' & [= <-] & Hsub). by apply Hall in Hsub.
  - unfold Example3.ModulePermissionsGuard.canActivate.
    rewrite Hreq, (no_requirement_nonempty _ Hne), Hu, Hp.
    split; [done |]. by intros (granted & [=] & _).
Qed.

(** X8. On a protected Example 3 route with a non-empty requirement, the
    chain allows exactly the requests whose header carries one of the
    tokens of the guard's table, the user stored under it holding every
    required module permission; that user is then attached to the
    request. *)
Theorem guards3_allows_iff (context : ExecutionContext Example3.User)
    (required : list string) (request' : Request Example3.User) :
  protected context →
  getAllAndOverride MODULE_PERMISSIONS_KEY (getHandler context)
    (getClass context) = Some required →
  required ≠ [] →
  Example3.guards context = (Return true, request')
  ↔ ∃ token u granted,
      AuthGuard.extractTokenFromHeader (getRequest context) = Some token
      ∧ Example3.users !! token = Some u
      ∧ Example3.permissions u = Some granted
      ∧ (∀ p, In p required → In p granted)
      ∧ request' = with_user (getRequest context) u.
Proof.
  intros Hprot Hreq Hne. unfold Example3.guards, Example3.AuthGuard_canActivate.
  rewrite (useGuards_allows_iff _ _ context request' Hprot). split.
  - intros (token & u & Hex & _ & Hv & -> & Hz).
    apply (ModulePermissionsGuard_allows_iff (with_request context (with_user (getRequest context) u)) required u Hreq Hne eq_refl)
      in Hz as (granted & Hp & Hsub).
    by exists token, u, granted.
  - intros (token & u & granted & Hex & Hv & Hp & Hsub & ->).
    exists token, u. split; [done |].
    split; [by intros -> |]. split; [done |]. split; [done |].
    apply (ModulePermissionsGuard_allows_iff (with_request context (with_user (getRequest context) u)) required u Hreq Hne eq_refl).
    by exists granted.
Qed.

Definition route3_context (required : list string) (header : option string)
  : ExecutionContext Example3.User :=
  {| getHandler :=
       {| IS_PUBLIC_KEY := None; ROLES_KEY := None; PERMISSIONS_KEY := None;
          MODULE_PERMISSIONS_KEY := Some required |};
     getClass := no_metadata;
     getRequest := {| authorization := header; user := None |} |}.

Definition readonly_user : Example3.User :=
  {| Example3.id := "5"; Example3.username := "readonly";
     Example3.email := "readonly@example.com";
     Example3.permissions := Some Example3.AuthService.readonly_permissions |}.

Lemma guards3_allows_iff_witness :
  Example3.guards
    (route3_context [Example3.ORDERS_READ] (Some "Bearer token-readonly"))
  = (Return true,
     {| authorization := Some "Bearer token-readonly";
        user := Some readonly_user |}).
Proof.
  apply (proj2 (guards3_allows_iff
                  (route3_context [Example3.ORDERS_READ]
                     (Some "Bearer token-readonly"))
                  [Example3.ORDERS_READ] _ eq_refl eq_refl
                  ltac:(discriminate))).
  exists "token-readonly", readonly_user,
    Example3.AuthService.readonly_permissions.
  split; [reflexivity |]. split; [reflexivity |]. split; [reflexivity |].
  split; [| reflexivity].
  intros p [<- | []]. vm_compute. tauto.
Defined.

(** *** Example 1: [AuthGuard] with the JWT service, then [RolesGuard] *)

(** The private [validateToken] of the Example 1 guard hands the bearer
    string to [jwtAuthService.verifyToken].  [decode] is the library's
    reading of the compact serialisation and [now] the clock at the time
    of the request. *)
Definition validateToken1 (now : N) (decode : string → Example1.Jwt)
    (token : string) : option Example1.UserData :=
  Example1.verifyToken now (decode token).

(** [@UseGuards(AuthGuard, RolesGuard)] *)
Definition guards1 (now : N) (decode : string → Example1.Jwt)
    (context : ExecutionContext Example1.UserData)
  : Result bool * Request Example1.UserData :=
  useGuards (AuthGuard.canActivate (validateToken1 now decode))
    Example1.RolesGuard.canActivate context.

(** [verifyToken] answers with a user only for a token signed with the
    registered secret whose expiry lies ahead, and the user is the
    payload of that token. *)
Lemma verifyToken_Some_iff (now : N) (token : Example1.Jwt)
    (u : Example1.UserData) :
  Example1.verifyToken now token = Some u
  ↔ ∃ iat exp, token = Example1.Signed Example1.secret u iat exp
               ∧ (now / 1000 < exp)%N.
Proof.
  unfold Example1.verifyToken, Example1.verifyAsync. split.
  - destruct token as [key payload iat exp | raw]; [| done].
    destruct (String.eqb key Example1.secret) eqn:Hkey; [| done].
    apply String.eqb_eq in Hkey as ->. cbn [negb].
    destruct (N.leb_spec exp (now / 1000)); [done |].
    destruct payload. intros [= <-]. by exists iat, exp.
  - intros (iat & exp & -> & Hexp). rewrite String.eqb_refl. cbn [negb].
    destruct (N.leb_spec exp (now / 1000)); [lia |]. by destruct u.
Qed.

Lemma RolesGuard_allows_iff (context : ExecutionContext Example1.UserData)
    (required : list string) (u : Example1.UserData) :
  getAllAndOverride ROLES_KEY (getHandler context) (getClass context)
    = Some required →
  required ≠ [] →
  user (getRequest context) = Some u →
  Example1.RolesGuard.canActivate context = Return true
  ↔ ∃ granted, Example1.roles u = Some granted
               ∧ ∃ r, In r required ∧ In r granted.
Proof.
  intros Hreq Hne Hu. destruct (Example1.roles u) as [granted|] eqn:Hr.
  - rewrite (RolesGuard_eval context required granted u Hreq Hne Hu Hr).
    pose proof (some_includes_iff required granted) as Hany.
    destruct (Js.some required _); split.
    + intros _. exists granted. split; [done |]. by apply Hany.
    + done.
    + done.
    + intros (granted' & [= <-] & Hex). by apply Hany in Hex.
  - unfold Example1.RolesGuard.canActivate.
    rewrite Hreq, (no_requirement_nonempty _ Hne), Hu, Hr.
    split; [done |]. by intros (granted & [=] & _).
Qed.

(** X9. On a protected Example 1 route with a non-empty role requirement, the
    chain allows exactly the requests whose bearer string decodes to a
    token signed with the registered secret, not yet expired, whose
    payload holds at least one required role; the payload becomes the
    request's user. *)
Theorem guards1_allows_iff (now : N) (decode : string → Example1.Jwt)
    (context : ExecutionContext Example1.UserData)
    (required : list string) (request' : Request Example1.UserData) :
  protected context →
  getAllAndOverride ROLES_KEY (getHandler context) (getClass context)
    = Some required →
  required ≠ [] →
  guards1 now decode context = (Return true, request')
  ↔ ∃ token payload iat exp granted,
      AuthGuard.extractTokenFromHeader (getRequest context) = Some token
      ∧ token ≠ ""
      ∧ decode token = Example1.Signed Example1.secret payload iat exp
      ∧ (now / 1000 < exp)%N
      ∧ Example1.roles payload = Some granted
      ∧ (∃ r, In r required ∧ In r granted)
      ∧ request' = with_user (getRequest context) payload.
Proof.
  intros Hprot Hreq Hne. unfold guards1.
  rewrite (useGuards_allows_iff _ _ context request' Hprot). split.
  - intros (token & u & Hex & Hnonempty & Hv & -> & Hz).
    apply verifyToken_Some_iff in Hv as (iat & exp & Hdec & Hexp).
    apply (RolesGuard_allows_iff
             (with_request context (with_user (getRequest context) u))
             required u Hreq Hne eq_refl) in Hz as (granted & Hr & Hany).
    by exists token, u, iat, exp, granted.
  - intros (token & u & iat & exp & granted
            & Hex & Hnonempty & Hdec & Hexp & Hr & Hany & ->).
    exists token, u. split; [done |]. split; [done |].
    split; [apply verifyToken_Some_iff; by exists iat, exp |].
    split; [done |].
    apply (RolesGuard_allows_iff
             (with_request context (with_user (getRequest context) u))
             required u Hreq Hne eq_refl).
    by exists granted.
Qed.

(** A decoder that knows one serialised token, the one issued to
    [reader] at time 0. *)
Definition decode_reader (token : string) : Example1.Jwt :=
  if String.eqb token "reader.jwt" then Example1.generateToken 0 reader
  else Example1.Malformed token.

Definition route1_context (required : list string) (header : option string)
  : ExecutionContext Example1.UserData :=
  {| getHandler :=
       {| IS_PUBLIC_KEY := None; ROLES_KEY := Some required;
          PERMISSIONS_KEY := None; MODULE_PERMISSIONS_KEY := None |};
     getClass := no_metadata;
     getRequest := {| authorization := header; user := None |} |}.

Lemma guards1_allows_iff_witness :
  guards1 3600000 decode_reader
    (route1_context [Example1.READ; Example1.ADMIN] (Some "Bearer reader.jwt"))
  = (Return true,
     {| authorization := Some "Bearer reader.jwt"; user := Some reader |}).
Proof.
  apply (proj2 (guards1_allows_iff 3600000 decode_reader
                  (route1_context [Example1.READ; Example1.ADMIN]
                     (Some "Bearer reader.jwt"))
                  [Example1.READ; Example1.ADMIN] _ eq_refl eq_refl
                  ltac:(discriminate))).
  exists "reader.jwt", reader, 0%N, 86400%N, [Example1.READ].
  split; [reflexivity |]. split; [discriminate |]. split; [reflexivity |].
  split; [vm_compute; reflexivity |]. split; [reflexivity |].
  split; [| reflexivity].
  exists Example1.READ. split; by left.
Defined.

(** ** Example 1: from login to the identity the guards see *)

(** X10. A successful login is a directory hit; and at any time less than
    86400 s after it, the token verifies to that very directory entry,
    with the roles the login response announced. *)
Theorem login1_identity (now later : N) (username password : string)
    (response : Example1.LoginResponse) :
  Example1.login now username password = Return response →
  (later / 1000 < now / 1000 + 86400)%N →
  ∃ entry,
    In entry Example1.users
    ∧ Example1.username entry = username
    ∧ Example1.verifyToken later (Example1.login_token response) = Some entry
    ∧ Example1.login_username response = username
    ∧ Example1.login_roles response = Example1.roles entry.
Proof.
  unfold Example1.login. intros Hlogin Hwindow.
  pose proof (validateUser1_find username password) as Hfind.
  destruct (Example1.validateUser username password) as [entry|]; [| done].
  destruct Hfind as [Hname Hin]. injection Hlogin as <-. cbn.
  exists entry. split; [done |]. split; [done |].
  rewrite verifyToken_window.
  destruct (N.leb_spec (now / 1000 + 86400) (later / 1000)); [lia | done].
Qed.

Definition jane_response : Example1.LoginResponse :=
  {| Example1.login_message := "Login successful";
     Example1.login_token :=
       Example1.generateToken 1735000000000
         {| Example1.id := "2"; Example1.username := "jane_manager";
            Example1.email := "jane@example.com";
            Example1.roles := Some [Example1.MANAGER; Example1.READ] |};
     Example1.login_username := "jane_manager";
     Example1.login_roles := Some [Example1.MANAGER; Example1.READ] |}.

Lemma login1_identity_witness :
  ∃ entry,
    In entry Example1.users
    ∧ Example1.username entry = "jane_manager"
    ∧ Example1.verifyToken 1735003600000 (Example1.login_token jane_response)
      = Some entry
    ∧ Example1.login_username jane_response = "jane_manager"
    ∧ Example1.login_roles jane_response = Example1.roles entry.
Proof.
  exact (login1_identity 1735000000000 1735003600000 "jane_manager" "anything"
           jane_response eq_refl ltac:(vm_compute; reflexivity)).
Defined.

(** X11. A login fails, with the invalid-credentials 401, exactly when no
    directory entry has the username; the password never matters. *)
Theorem login1_fails_iff (now : N) (username password : string) :
  Example1.login now username password
  = Throw (UnauthorizedException "Invalid credentials")
  ↔ ∀ entry, In entry Example1.users → Example1.username entry ≠ username.
Proof.
  unfold Example1.login.
  pose proof (validateUser1_find username password) as Hfind.
  destruct (Example1.validateUser username password) as [entry|].
  - destruct Hfind as [Hname Hin]. split; [done |].
    intros Hnone. by destruct (Hnone entry Hin).
  - done.
Qed.

(** ** How requirements and grants combine *)

(** The context with other decorators on the handler. *)
Definition with_handler {User} (context : ExecutionContext User)
    (handler : Metadata) : ExecutionContext User :=
  {| getHandler := handler; getClass := getClass context;
     getRequest := getRequest context |}.

(** [@RequirePermissions(...required)], [@RequireModulePermissions(...)]
    and [@Roles(...)] as the only decorator of a handler. *)
Definition RequirePermissions (required : list string) : Metadata :=
  {| IS_PUBLIC_KEY := None; ROLES_KEY := None;
     PERMISSIONS_KEY := Some required; MODULE_PERMISSIONS_KEY := None |}.
Definition RequireModulePermissions (required : list string) : Metadata :=
  {| IS_PUBLIC_KEY := None; ROLES_KEY := None; PERMISSIONS_KEY := None;
     MODULE_PERMISSIONS_KEY := Some required |}.
Definition Roles (required : list string) : Metadata :=
  {| IS_PUBLIC_KEY := None; ROLES_KEY := Some required;
     PERMISSIONS_KEY := None; MODULE_PERMISSIONS_KEY := None |}.

Lemma PermissionsGuard_verdict (context : ExecutionContext Example2.User)
    (required granted : list string) (u : Example2.User) :
  getAllAndOverride PERMISSIONS_KEY (getHandler context) (getClass context)
    = Some required →
  user (getRequest context) = Some u →
  Example2.permissions u = Some granted →
  Example2.PermissionsGuard.canActivate context = Return true
  ↔ ∀ p, In p required → In p granted.
Proof.
  intros Hreq Hu Hp. destruct required as [|r required].
  - rewrite PermissionsGuard_no_requirement by by rewrite Hreq. done.
  - rewrite (PermissionsGuard_allows_iff context (r :: required) u Hreq
               ltac:(done) Hu).
    split; [by intros (g & [= <-]%(eq_trans (eq_sym Hp)) & H) |].
    intros H. by exists granted.
Qed.

Lemma ModulePermissionsGuard_verdict (context : ExecutionContext Example3.User)
    (required granted : list string) (u : Example3.User) :
  getAllAndOverride MODULE_PERMISSIONS_KEY (getHandler context)
    (getClass context) = Some required →
  user (getRequest context) = Some u →
  Example3.permissions u = Some granted →
  Example3.ModulePermissionsGuard.canActivate context = Return true
  ↔ ∀ p, In p required → In p granted.
Proof.
  intros Hreq Hu Hp. destruct required as [|r required].
  - rewrite ModulePermissionsGuard_no_requirement by by rewrite Hreq. done.
  - rewrite (ModulePermissionsGuard_allows_iff context (r :: required) u Hreq
               ltac:(done) Hu).
    split; [by intros (g & [= <-]%(eq_trans (eq_sym Hp)) & H) |].
    intros H. by exists granted.
Qed.

Lemma RolesGuard_verdict (context : ExecutionContext Example1.UserData)
    (required granted : list string) (u : Example1.UserData) :
  getAllAndOverride ROLES_KEY (getHandler context) (getClass context)
    = Some required →
  user (getRequest context) = Some u →
  Example1.roles u = Some granted →
  Example1.RolesGuard.canActivate context = Return true
  ↔ required = [] ∨ ∃ r, In r required ∧ In r granted.
Proof.
  intros Hreq Hu Hr. destruct required as [|r required].
  - rewrite RolesGuard_no_requirement by by rewrite Hreq. split; [by left | done].
  - rewrite (RolesGuard_allows_iff context (r :: required) u Hreq
               ltac:(done) Hu).
    split.
    + intros (g & [= <-]%(eq_trans (eq_sym Hr)) & H). by right.
    + intros [[=] | H]. by exists granted.
Qed.

Lemma RequirePermissions_verdict (context : ExecutionContext Example2.User)
    (required granted : list string) (u : Example2.User) :
  user (getRequest context) = Some u →
  Example2.permissions u = Some granted →
  Example2.PermissionsGuard.canActivate
    (with_handler context (RequirePermissions required)) = Return true
  ↔ ∀ p, In p required → In p granted.
Proof.
  intros Hu Hp.
  by apply (PermissionsGuard_verdict
              (with_handler context (RequirePermissions required))
              required granted u eq_refl Hu Hp).
Qed.

Lemma RequireModulePermissions_verdict
    (context : ExecutionContext Example3.User)
    (required granted : list string) (u : Example3.User) :
  user (getRequest context) = Some u →
  Example3.permissions u = Some granted →
  Example3.ModulePermissionsGuard.canActivate
    (with_handler context (RequireModulePermissions required)) = Return true
  ↔ ∀ p, In p required → In p granted.
Proof.
  intros Hu Hp.
  by apply (ModulePermissionsGuard_verdict
              (with_handler context (RequireModulePermissions required))
              required granted u eq_refl Hu Hp).
Qed.

Lemma Roles_verdict (context : ExecutionContext Example1.UserData)
    (required granted : list string) (u : Example1.UserData) :
  user (getRequest context) = Some u →
  Example1.roles u = Some granted →
  Example1.RolesGuard.canActivate (with_handler context (Roles required))
  = Return true
  ↔ required = [] ∨ ∃ r, In r required ∧ In r granted.
Proof.
  intros Hu Hr.
  by apply (RolesGuard_verdict (with_handler context (Roles required))
              required granted u eq_refl Hu Hr).
Qed.

(** X12. ALL rule: listing permissions together is requiring each group on
    its own.  For every request, [@RequirePermissions(...a, ...b)] lets it
    through exactly when both [@RequirePermissions(...a)] and
    [@RequirePermissions(...b)] would; the same for module permissions. *)
Theorem all_rule_requirements_compose (a b : list string) :
  (∀ context : ExecutionContext Example2.User,
     Example2.PermissionsGuard.canActivate
       (with_handler context (RequirePermissions (a ++ b))) = Return true
     ↔ Example2.PermissionsGuard.canActivate
         (with_handler context (RequirePermissions a)) = Return true
       ∧ Example2.PermissionsGuard.canActivate
           (with_handler context (RequirePermissions b)) = Return true)
  ∧ (∀ context : ExecutionContext Example3.User,
       Example3.ModulePermissionsGuard.canActivate
         (with_handler context (RequireModulePermissions (a ++ b))) = Return true
       ↔ Example3.ModulePermissionsGuard.canActivate
           (with_handler context (RequireModulePermissions a)) = Return true
         ∧ Example3.ModulePermissionsGuard.canActivate
             (with_handler context (RequireModulePermissions b)) = Return true).
Proof.
  split; intros context.
  - destruct (user (getRequest context)) as [u|] eqn:Hu.
    + destruct (Example2.permissions u) as [granted|] eqn:Hp.
      * rewrite !(RequirePermissions_verdict context _ granted u Hu Hp).
        setoid_rewrite in_app_iff. firstorder.
      * unfold Example2.PermissionsGuard.canActivate. cbn. rewrite Hu, Hp.
        destruct a, b; cbn; split; (done || by intros []).
    + unfold Example2.PermissionsGuard.canActivate. cbn. rewrite Hu.
      destruct a, b; cbn; split; (done || by intros []).
  - destruct (user (getRequest context)) as [u|] eqn:Hu.
    + destruct (Example3.permissions u) as [granted|] eqn:Hp.
      * rewrite !(RequireModulePermissions_verdict context _ granted u Hu Hp).
        setoid_rewrite in_app_iff. firstorder.
      * unfold Example3.ModulePermissionsGuard.canActivate. cbn. rewrite Hu, Hp.
        destruct a, b; cbn; split; (done || by intros []).
    + unfold Example3.ModulePermissionsGuard.canActivate. cbn. rewrite Hu.
      destruct a, b; cbn; split; (done || by intros []).
Qed.

Lemma Roles_without_roles (context : ExecutionContext Example1.UserData)
    (required : list string) :
  required ≠ [] →
  granted1 (getRequest context) = None →
  Example1.RolesGuard.canActivate (with_handler context (Roles required))
  = Throw MissingRoles.
Proof.
  intros Hne Hg. unfold Example1.RolesGuard.canActivate.
  change (getAllAndOverride ROLES_KEY _ _) with (Some required).
  rewrite (no_requirement_nonempty _ Hne). unfold granted1 in Hg.
  cbn [getRequest with_handler].
  destruct (user (getRequest context)) as [u|]; [by rewrite Hg | done].
Qed.

(** X13. ANY rule: listing roles together is accepting either group.  For two
    non-empty groups, [@Roles(...a, ...b)] lets a request through exactly
    when [@Roles(...a)] or [@Roles(...b)] would. *)
Theorem any_rule_requirements_compose (a b : list string)
    (context : ExecutionContext Example1.UserData) :
  a ≠ [] → b ≠ [] →
  Example1.RolesGuard.canActivate (with_handler context (Roles (a ++ b)))
  = Return true
  ↔ Example1.RolesGuard.canActivate (with_handler context (Roles a))
    = Return true
    ∨ Example1.RolesGuard.canActivate (with_handler context (Roles b))
      = Return true.
Proof.
  intros Ha Hb.
  assert (Hab : (a ++ b)%list ≠ []) by by destruct a.
  destruct (granted1 (getRequest context)) as [granted|] eqn:Hg.
  - unfold granted1 in Hg.
    destruct (user (getRequest context)) as [u|] eqn:Hu; [| done].
    rewrite !(Roles_verdict context _ granted u Hu Hg).
    setoid_rewrite in_app_iff. firstorder.
  - rewrite !Roles_without_roles by done. split; [done | by intros []].
Qed.

Definition manager_request : Request Example1.UserData :=
  {| authorization := None;
     user := Some {| Example1.id := "2"; Example1.username := "jane_manager";
                     Example1.email := "jane@example.com";
                     Example1.roles := Some [Example1.MANAGER; Example1.READ] |} |}.

Definition manager_context : ExecutionContext Example1.UserData :=
  {| getHandler := no_metadata; getClass := no_metadata;
     getRequest := manager_request |}.

(** [@Roles(MANAGER, SUPER_ADMIN)] on the update route, seen as the two
    groups [MANAGER] and [SUPER_ADMIN]. *)
Lemma any_rule_requirements_compose_witness :
  Example1.RolesGuard.canActivate
    (with_handler manager_context
       (Roles [Example1.MANAGER; Example1.SUPER_ADMIN])) = Return true.
Proof.
  apply (proj2 (any_rule_requirements_compose [Example1.MANAGER]
                  [Example1.SUPER_ADMIN] manager_context
                  ltac:(discriminate) ltac:(discriminate))).
  left. reflexivity.
Defined.

(** X14. ALL rule: a verdict of "allowed" survives dropping requirements and
    adding grants.  In particular it depends only on which tokens are
    required and which are granted, not on their order or repetition. *)
Theorem all_rule_monotone (required required' granted granted' : list string) :
  (∀ p, In p required' → In p required) →
  (∀ p, In p granted → In p granted') →
  (∀ (context context' : ExecutionContext Example2.User) u u',
     user (getRequest context) = Some u →
     Example2.permissions u = Some granted →
     user (getRequest context') = Some u' →
     Example2.permissions u' = Some granted' →
     Example2.PermissionsGuard.canActivate
       (with_handler context (RequirePermissions required)) = Return true →
     Example2.PermissionsGuard.canActivate
       (with_handler context' (RequirePermissions required')) = Return true)
  ∧ (∀ (context context' : ExecutionContext Example3.User) u u',
       user (getRequest context) = Some u →
       Example3.permissions u = Some granted →
       user (getRequest context') = Some u' →
       Example3.permissions u' = Some granted' →
       Example3.ModulePermissionsGuard.canActivate
         (with_handler context (RequireModulePermissions required))
       = Return true →
       Example3.ModulePermissionsGuard.canActivate
         (with_handler context' (RequireModulePermissions required'))
       = Return true).
Proof.
  intros Hreq Hgr. split; intros context context' u u' Hu Hp Hu' Hp'.
  - rewrite (RequirePermissions_verdict context required granted u Hu Hp),
      (RequirePermissions_verdict context' required' granted' u' Hu' Hp').
    auto.
  - rewrite (RequireModulePermissions_verdict context required granted u Hu Hp),
      (RequireModulePermissions_verdict context' required' granted' u' Hu' Hp').
    auto.
Qed.

(** The editor passes [update, read]; so does the full-access user for
    the requirement [read, update, read]. *)
Lemma all_rule_monotone_witness :
  Example2.PermissionsGuard.canActivate
    (with_handler
       (route2_context [] None (Some forged_admin))
       (RequirePermissions [Example2.READ; Example2.UPDATE; Example2.READ]))
  = Return true.
Proof.
  refine (proj1 (all_rule_monotone
            [Example2.UPDATE; Example2.READ]
            [Example2.READ; Example2.UPDATE; Example2.READ]
            [Example2.READ; Example2.UPDATE]
            [Example2.READ; Example2.CREATE; Example2.UPDATE; Example2.DELETE]
            _ _)
          (route2_context [] None
             (Some {| Example2.id := "3"; Example2.username := "editor";
                      Example2.email := "editor@example.com";
                      Example2.permissions :=
                        Some [Example2.READ; Example2.UPDATE] |}))
          (route2_context [] None (Some forged_admin))
          _ forged_admin eq_refl eq_refl eq_refl eq_refl eq_refl).
  - intros p Hp. vm_compute in Hp |- *. tauto.
  - intros p Hp. vm_compute in Hp |- *. tauto.
Defined.

(** X15. ANY rule: a verdict of "allowed" on a non-empty requirement survives
    adding alternatives to the requirement and adding roles to the
    caller; it too depends only on the two sets. *)
Theorem any_rule_monotone (required required' granted granted' : list string)
    (context context' : ExecutionContext Example1.UserData)
    (u u' : Example1.UserData) :
  required ≠ [] →
  (∀ r, In r required → In r required') →
  (∀ r, In r granted → In r granted') →
  user (getRequest context) = Some u →
  Example1.roles u = Some granted →
  user (getRequest context') = Some u' →
  Example1.roles u' = Some granted' →
  Example1.RolesGuard.canActivate (with_handler context (Roles required))
  = Return true →
  Example1.RolesGuard.canActivate (with_handler context' (Roles required'))
  = Return true.
Proof.
  intros Hne Hreq Hgr Hu Hr Hu' Hr'.
  rewrite (Roles_verdict context required granted u Hu Hr),
    (Roles_verdict context' required' granted' u' Hu' Hr').
  intros [-> | (r & Hin & Hg)]; [done |]. right. exists r. auto.
Qed.

Lemma any_rule_monotone_witness :
  Example1.RolesGuard.canActivate
    (with_handler manager_context
       (Roles [Example1.SUPER_ADMIN; Example1.MANAGER])) = Return true.
Proof.
  refine (any_rule_monotone [Example1.MANAGER]
            [Example1.SUPER_ADMIN; Example1.MANAGER]
            [Example1.MANAGER] [Example1.MANAGER; Example1.READ]
            {| getHandler := no_metadata; getClass := no_metadata;
               getRequest :=
                 {| authorization := None;
                    user := Some {| Example1.id := "9";
                                    Example1.username := "m";
                                    Example1.email := "m@example.com";
                                    Example1.roles := Some [Example1.MANAGER] |} |} |}
            manager_context _ _
            ltac:(discriminate) _ _ eq_refl eq_refl eq_refl eq_refl eq_refl).
  - intros r Hr. vm_compute in Hr |- *. tauto.
  - intros r Hr. vm_compute in Hr |- *. tauto.
Defined.

(** ** The user directories *)

(** X16. [validateUser] succeeds exactly on the directory entries: in
    Examples 2 and 3 on the pair (username, password) of an entry, in
    Example 1 on the username of an entry; and it returns that entry, so
    every listed user logs in as itself and as nobody else. *)
Theorem validateUser_directory_iff :
  (∀ username password entry,
     Example2.AuthService.validateUser username password = Some entry
     ↔ In entry Example2.AuthService.users
       ∧ Example2.AuthService.username entry = username
       ∧ Example2.AuthService.password entry = password)
  ∧ (∀ username password entry,
       Example3.AuthService.validateUser username password = Some entry
       ↔ In entry Example3.AuthService.users
         ∧ Example3.AuthService.username entry = username
         ∧ Example3.AuthService.password entry = password)
  ∧ (∀ username password entry,
       Example1.validateUser username password = Some entry
       ↔ In entry Example1.users ∧ Example1.username entry = username).
Proof.
  refine (conj _ (conj _ _)); intros username password entry; split.
  - intros H. split; [by apply find_some in H as [Hin _] |].
    by apply validateUser2_exact.
  - intros (Hin & <- & <-).
    repeat (destruct Hin as [<- | Hin]; [reflexivity |]). destruct Hin.
  - intros H. split; [by apply find_some in H as [Hin _] |].
    by apply validateUser3_exact.
  - intros (Hin & <- & <-).
    repeat (destruct Hin as [<- | Hin]; [reflexivity |]). destruct Hin.
  - intros H. pose proof (validateUser1_find username password) as Hfind.
    rewrite H in Hfind. tauto.
  - intros (Hin & <-).
    repeat (destruct Hin as [<- | Hin]; [reflexivity |]). destruct Hin.
Qed.

(** ** Characters of a minted token *)

Fixpoint all_chars (P : ascii → bool) (s : string) : bool :=
  match s with
  | EmptyString => true
  | String c rest => P c && all_chars P rest
  end.

Lemma all_chars_app (P : ascii → bool) (s1 s2 : string) :
  all_chars P (s1 +:+ s2) = all_chars P s1 && all_chars P s2.
Proof.
  induction s1 as [|c s1 IH]; simpl; [done |].
  rewrite IH. by rewrite andb_assoc.
Qed.

(** Every character [pretty] writes for a number is a decimal digit. *)
Lemma pretty_N_go_chars (P : ascii → bool) (x : N) (s : string) :
  (∀ d, P (pretty_N_char d) = true) →
  all_chars P s = true →
  all_chars P (pretty_N_go x s) = true.
Proof.
  intros Hdigit. revert s.
  induction (N.lt_wf_0 x) as [x _ IH]; intros s Hs.
  destruct (decide (x = 0)%N) as [-> | Hx]; [by rewrite pretty_N_go_0 |].
  rewrite pretty_N_go_step by lia.
  apply IH; [apply N.div_lt; lia |]. simpl. by rewrite Hdigit, Hs.
Qed.

Lemma pretty_N_chars (P : ascii → bool) (x : N) :
  (∀ d, P (pretty_N_char d) = true) →
  all_chars P (pretty x) = true.
Proof.
  intros Hdigit. unfold pretty, pretty_N.
  destruct (decide (x = 0)%N).
  - pose proof (Hdigit 0%N) as H0. simpl in H0 |- *. by rewrite H0.
  - by apply pretty_N_go_chars.
Qed.

Definition not_space (c : ascii) : bool := negb (Ascii.eqb c " "%char).
Definition not_dash (c : ascii) : bool := negb (Ascii.eqb c "-"%char).

Lemma digit_not_space d : not_space (pretty_N_char d) = true.
Proof. unfold pretty_N_char. by repeat case_match. Qed.

Lemma digit_not_dash d : not_dash (pretty_N_char d) = true.
Proof. unfold pretty_N_char. by repeat case_match. Qed.

Lemma no_space_all_chars (s : string) : no_space s = all_chars not_space s.
Proof. induction s as [|c s IH]; simpl; [done |]. by rewrite IH. Qed.

Lemma dash_free_all_chars (s : string) :
  count_dash s = 0%nat ↔ all_chars not_dash s = true.
Proof.
  induction s as [|c s IH]; simpl; [done |]. unfold not_dash at 1.
  destruct (Ascii.eqb c "-"); simpl; [split; [lia | done] | exact IH].
Qed.

Lemma no_space_app (s1 s2 : string) :
  no_space (s1 +:+ s2) = no_space s1 && no_space s2.
Proof. rewrite !no_space_all_chars. apply all_chars_app. Qed.

(** A minted token has no space when the username and the random suffix
    have none. *)
Lemma token_string_no_space (username : string) (now : N) (rnd : string) :
  no_space username = true → no_space rnd = true →
  no_space (token_string username now rnd) = true.
Proof.
  intros Hu Hr. unfold token_string. rewrite !no_space_app, Hu, Hr.
  rewrite (no_space_all_chars (pretty now)),
    (pretty_N_chars not_space now digit_not_space).
  done.
Qed.

(** Cutting at the first dash: two strings that agree, each being a
    dash-free part, a dash and a rest, agree part by part. *)
Lemma first_dash_inj (a a' b b' : string) :
  count_dash a = 0%nat → count_dash a' = 0%nat →
  a +:+ "-" +:+ b = a' +:+ "-" +:+ b' → a = a' ∧ b = b'.
Proof.
  change ("-" +:+ b) with (String "-" b).
  change ("-" +:+ b') with (String "-" b').
  revert a'. induction a as [|c a IH]; intros [|c' a'] Ha Ha' Heq;
    simpl in Ha, Ha', Heq.
  - by injection Heq as ->.
  - injection Heq as <- _.
    rewrite Ascii.eqb_refl in Ha'. lia.
  - injection Heq as -> _.
    rewrite Ascii.eqb_refl in Ha. lia.
  - injection Heq as -> Heq.
    destruct (Ascii.eqb c' "-"); [lia |].
    destruct (IH a' Ha Ha' Heq) as [-> ->]. done.
Qed.

Lemma dash_fields_inj (username username' : string) (now now' : N)
    (rnd rnd' : string) :
  count_dash username = 0%nat → count_dash username' = 0%nat →
  username +:+ "-" +:+ pretty now +:+ "-" +:+ rnd
  = username' +:+ "-" +:+ pretty now' +:+ "-" +:+ rnd' →
  username = username' ∧ now = now' ∧ rnd = rnd'.
Proof.
  intros Hu Hu' Heq.
  apply first_dash_inj in Heq as [-> Heq]; [| done | done].
  split; [done |].
  apply first_dash_inj in Heq as [Hnow ->];
    [| apply dash_free_all_chars, pretty_N_chars, digit_not_dash ..].
  split; [| done]. by apply (inj pretty) in Hnow.
Qed.

(** X17. For dash-free usernames the token determines the username, the clock
    reading and the suffix it was minted from. *)
Theorem token_string_inj (username username' : string) (now now' : N)
    (rnd rnd' : string) :
  count_dash username = 0%nat → count_dash username' = 0%nat →
  token_string username now rnd = token_string username' now' rnd' →
  username = username' ∧ now = now' ∧ rnd = rnd'.
Proof.
  intros Hu Hu'. unfold token_string. intros Heq.
  apply (inj (String.append "token-")) in Heq.
  by apply dash_fields_inj.
Qed.

Lemma token_string_inj_witness :
  "reader" = "reader" ∧ 1735000000000%N = 1735000000000%N ∧ "k3x9q" = "k3x9q".
Proof.
  exact (token_string_inj "reader" "reader" 1735000000000 1735000000000
           "k3x9q" "k3x9q" eq_refl eq_refl eq_refl).
Defined.

(** ** The login of Example 2 *)

Lemma users2_usernames_plain (entry : Example2.AuthService.User) :
  In entry Example2.AuthService.users →
  count_dash (Example2.AuthService.username entry) = 0%nat
  ∧ no_space (Example2.AuthService.username entry) = true.
Proof.
  intros Hin.
  repeat (destruct Hin as [<- | Hin]; [by split |]). destruct Hin.
Qed.

(** X18. What one call of [login] does.  On success the credentials are those
    of a directory entry, the token is the minted string, the response
    repeats the entry's permissions, [tokenMap] gains exactly that token,
    and [validateToken] resolves it to the entry's username and
    permissions.  On failure the exception is the 401 of the controller,
    [tokenMap] is untouched, and no entry has those credentials. *)
Theorem login2_outcome (now : N) (rnd username password : string)
    (tokenMap : gmap string Example2.AuthService.TokenUser) :
  let result := Example2.login now rnd username password tokenMap in
  match fst result with
  | Return response =>
      ∃ entry,
        In entry Example2.AuthService.users
        ∧ Example2.AuthService.username entry = username
        ∧ Example2.AuthService.password entry = password
        ∧ Example2.login_token response = token_string username now rnd
        ∧ Example2.login_username response = username
        ∧ Example2.login_permissions response
          = Example2.AuthService.permissions entry
        ∧ snd result
          = <[Example2.login_token response :=
                {| Example2.AuthService.token_username := username;
                   Example2.AuthService.token_permissions :=
                     Example2.AuthService.permissions entry |}]> tokenMap
        ∧ Example2.AuthService.validateToken (snd result)
            (Example2.login_token response)
          = Js.Own {| Example2.AuthService.token_username := username;
                      Example2.AuthService.token_permissions :=
                        Example2.AuthService.permissions entry |}
  | Throw e =>
      e = UnauthorizedException "Invalid username or password"
      ∧ snd result = tokenMap
      ∧ ∀ entry, In entry Example2.AuthService.users →
                 ¬ (Example2.AuthService.username entry = username
                    ∧ Example2.AuthService.password entry = password)
  end.
Proof.
  cbn zeta. unfold Example2.login.
  destruct (Example2.AuthService.validateUser username password)
    as [entry|] eqn:Hv.
  - apply validateUser2_Some_iff in Hv as (Hin & <- & <-).
    cbn. exists entry. repeat (split; [done |]).
    apply validateToken2_dynamic_first, lookup_insert_eq.
  - cbn. split; [done |]. split; [done |]. intros entry Hin [Hu Hp].
    assert (Example2.AuthService.validateUser username password = Some entry)
      as Hsome by by apply validateUser2_Some_iff.
    congruence.
Qed.

Lemma login2_success (now : N) (rnd username password : string)
    (tokenMap : gmap string Example2.AuthService.TokenUser)
    (response : Example2.LoginResponse) :
  fst (Example2.login now rnd username password tokenMap) = Return response →
  ∃ entry,
    Example2.AuthService.validateUser username password = Some entry
    ∧ Example2.login_token response = token_string username now rnd
    ∧ Example2.login_permissions response
      = Example2.AuthService.permissions entry.
Proof.
  unfold Example2.login.
  destruct (Example2.AuthService.validateUser username password)
    as [entry|] eqn:Hv; [| done].
  apply validateUser2_exact in Hv as Hfields. destruct Hfields as [<- _].
  cbn. intros [= <-]. by exists entry.
Qed.

(** X19. Two successful logins that hand out the same token string were for
    the same user, at the same clock reading, with the same suffix, and
    so with the same permissions: a collision never gives one user the
    token of another. *)
Theorem login2_same_token_same_login
    (now now' : N) (rnd rnd' username username' password password' : string)
    (tokenMap tokenMap' : gmap string Example2.AuthService.TokenUser)
    (response response' : Example2.LoginResponse) :
  fst (Example2.login now rnd username password tokenMap) = Return response →
  fst (Example2.login now' rnd' username' password' tokenMap')
    = Return response' →
  Example2.login_token response = Example2.login_token response' →
  username = username' ∧ now = now' ∧ rnd = rnd'
  ∧ Example2.login_permissions response = Example2.login_permissions response'.
Proof.
  intros H1 H2 Htoken.
  apply login2_success in H1 as (e1 & V1 & Ht1 & Hperm1).
  apply login2_success in H2 as (e2 & V2 & Ht2 & Hperm2).
  apply validateUser2_Some_iff in V1 as (Hin1 & Hu1 & _).
  apply validateUser2_Some_iff in V2 as (Hin2 & Hu2 & _).
  rewrite Ht1, Ht2 in Htoken. unfold token_string in Htoken.
  apply (inj (String.append "token-")) in Htoken.
  apply dash_fields_inj in Htoken as (Hsame & <- & <-);
    [| rewrite <- Hu1; by apply users2_usernames_plain
     | rewrite <- Hu2; by apply users2_usernames_plain].
  repeat (split; [done |]). rewrite Hperm1, Hperm2.
  rewrite <- Hsame in Hu2. rewrite <- Hu1 in Hu2. clear -Hin1 Hin2 Hu2.
  repeat (destruct Hin1 as [<- | Hin1];
          [repeat (destruct Hin2 as [<- | Hin2];
                   [done || discriminate Hu2 |]); destruct Hin2 |]).
  destruct Hin1.
Qed.

Definition reader_response : Example2.LoginResponse :=
  {| Example2.login_message := "Login successful";
     Example2.login_token := "token-reader-1735000000000-k3x9q";
     Example2.login_username := "reader";
     Example2.login_permissions := [Example2.READ] |}.

Lemma login2_same_token_same_login_witness :
  "reader" = "reader" ∧ 1735000000000%N = 1735000000000%N ∧ "k3x9q" = "k3x9q"
  ∧ Example2.login_permissions reader_response
    = Example2.login_permissions reader_response.
Proof.
  exact (login2_same_token_same_login 1735000000000 1735000000000
           "k3x9q" "k3x9q" "reader" "reader" "password123" "password123"
           ∅ (snd (issue2 ∅ creator_login)) reader_response reader_response
           eq_refl eq_refl eq_refl).
Defined.

(** ** The guards' own token tables *)

Definition guard_tokens2 : list string :=
  ["token-read-only"; "token-creator"; "token-editor"; "token-full-access"].

Definition guard_tokens3 : list string :=
  ["token-admin-full"; "token-content-manager"; "token-product-manager";
   "token-customer-service"; "token-readonly"].

Lemma validateToken2_keys (token : string) (u : Example2.User) :
  Example2.validateToken token = Some u → In token guard_tokens2.
Proof.
  unfold Example2.validateToken, Example2.users. intros H.
  apply elem_of_list_to_map_2 in H. apply list_elem_of_In in H.
  repeat (destruct H as [[= <- _] | H]; [cbn; tauto |]). destruct H.
Qed.

Lemma validateToken3_keys (token : string) (u : Example3.User) :
  Example3.validateToken token = Some u → In token guard_tokens3.
Proof.
  unfold Example3.validateToken, Example3.users. intros H.
  apply elem_of_list_to_map_2 in H. apply list_elem_of_In in H.
  repeat (destruct H as [[= <- _] | H]; [cbn; tauto |]). destruct H.
Qed.

Lemma guard_tokens2_few_dashes : few_dashes guard_tokens2.
Proof. unfold few_dashes. repeat constructor. Qed.

Lemma guard_tokens3_few_dashes : few_dashes guard_tokens3.
Proof. unfold few_dashes. repeat constructor. Qed.

Lemma guard2_rejects_minted (username : string) (now : N) (rnd : string) :
  Example2.validateToken (token_string username now rnd) = None.
Proof.
  destruct (Example2.validateToken _) as [u|] eqn:H; [| done].
  apply validateToken2_keys in H.
  by apply few_dashes_not_minted in H; [| apply guard_tokens2_few_dashes].
Qed.

(** X20. The guards of Examples 2 and 3 resolve tokens in their own [Map] of
    predefined tokens and never in [AuthService.tokenMap]: whatever
    username, clock reading and suffix a token is minted from, neither
    guard knows it. *)
Theorem minted_token_unknown_to_guards (username : string) (now : N)
    (rnd : string) :
  Example2.validateToken (token_string username now rnd) = None
  ∧ Example3.validateToken (token_string username now rnd) = None.
Proof.
  split.
  - destruct (Example2.validateToken _) as [u|] eqn:H; [| done].
    apply validateToken2_keys in H.
    by apply few_dashes_not_minted in H; [| apply guard_tokens2_few_dashes].
  - destruct (Example3.validateToken _) as [u|] eqn:H; [| done].
    apply validateToken3_keys in H.
    by apply few_dashes_not_minted in H; [| apply guard_tokens3_few_dashes].
Qed.

(** X21. So the token a successful Example 2 login returns is refused on every
    protected route of that example: presented as [Bearer <token>] it
    gets the invalid-token 401 (the random suffix is alphanumeric, hence
    free of spaces). *)
Theorem login2_token_refused_by_guard
    (now : N) (rnd username password : string)
    (tokenMap : gmap string Example2.AuthService.TokenUser)
    (response : Example2.LoginResponse)
    (context : ExecutionContext Example2.User) :
  fst (Example2.login now rnd username password tokenMap) = Return response →
  no_space rnd = true →
  protected context →
  authorization (getRequest context)
    = Some ("Bearer " +:+ Example2.login_token response) →
  Example2.guards context = (Throw InvalidToken, getRequest context).
Proof.
  intros Hlogin Hrnd Hprot Hheader.
  apply login2_success in Hlogin as (entry & Hv & Htoken & _).
  apply validateUser2_Some_iff in Hv as (Hin & Hu & _).
  assert (Hplain : no_space (Example2.login_token response) = true).
  { rewrite Htoken. apply token_string_no_space; [| done].
    rewrite <- Hu. by apply users2_usernames_plain. }
  assert (Hex : AuthGuard.extractTokenFromHeader (getRequest context)
                = Some (Example2.login_token response)).
  { by apply extract_bearer_token. }
  unfold Example2.guards, Example2.AuthGuard_canActivate, useGuards.
  rewrite (unknown_token_is_validation_failed Example2.validateToken context
             Hprot (Example2.login_token response) Hex); [done | |].
  - rewrite Htoken. unfold token_string. done.
  - rewrite Htoken. apply guard2_rejects_minted.
Qed.

Lemma login2_token_refused_by_guard_witness :
  Example2.guards
    (route2_context [Example2.READ]
       (Some "Bearer token-reader-1735000000000-k3x9q") None)
  = (Throw InvalidToken,
     {| authorization := Some "Bearer token-reader-1735000000000-k3x9q";
        user := None |}).
Proof.
  exact (login2_token_refused_by_guard 1735000000000 "k3x9q" "reader"
           "password123" ∅ reader_response
           (route2_context [Example2.READ]
              (Some "Bearer token-reader-1735000000000-k3x9q") None)
           eq_refl eq_refl eq_refl eq_refl).
Defined.

(** X22. The guard's table and the service's [predefinedTokens] name the same
    tokens with the same usernames.  In Example 2 they also give the same
    permissions.  In Example 3 the guard gives each token a subset of
    what the service lists: it leaves out [posts:delete] for the content
    manager, [products:delete] for the product manager and
    [users:update] for customer service. *)
Theorem guard_tables_against_predefinedTokens :
  (∀ token u,
     Example2.validateToken token = Some u →
     ∃ stored granted,
       Js.own_property Example2.AuthService.predefinedTokens token = Some stored
       ∧ Example2.username u = Example2.AuthService.token_username stored
       ∧ Example2.permissions u = Some granted
       ∧ granted = Example2.AuthService.token_permissions stored)
  ∧ (∀ token u,
       Example3.validateToken token = Some u →
       ∃ stored granted,
         Js.own_property Example3.AuthService.predefinedTokens token
           = Some stored
         ∧ Example3.username u = Example3.AuthService.token_username stored
         ∧ Example3.permissions u = Some granted
         ∧ (∀ p, In p granted →
                 In p (Example3.AuthService.token_permissions stored))
         ∧ missingPermissions
             (Example3.AuthService.token_permissions stored) granted
           = match token with
             | "token-content-manager" => [Example3.POSTS_DELETE]
             | "token-product-manager" => [Example3.PRODUCTS_DELETE]
             | "token-customer-service" => [Example3.USERS_UPDATE]
             | _ => []
             end)
  ∧ (∀ token stored,
       Js.own_property Example2.AuthService.predefinedTokens token = Some stored
       → is_Some (Example2.validateToken token))
  ∧ (∀ token stored,
       Js.own_property Example3.AuthService.predefinedTokens token = Some stored
       → is_Some (Example3.validateToken token)).
Proof.
  refine (conj _ (conj _ (conj _ _))).
  - intros token u H. pose proof (validateToken2_keys token u H) as Hkey.
    repeat (destruct Hkey as [<- | Hkey];
            [vm_compute in H; injection H as <-;
             eexists _, _; repeat split; reflexivity |]).
    destruct Hkey.
  - intros token u H. pose proof (validateToken3_keys token u H) as Hkey.
    repeat (destruct Hkey as [<- | Hkey];
            [vm_compute in H; injection H as <-;
             eexists _, _;
             (split; [reflexivity |]); (split; [reflexivity |]);
             (split; [reflexivity |]);
             (split; [intros p Hp; vm_compute in Hp |- *; tauto | reflexivity])
            |]).
    destruct Hkey.
  - intros token stored H. apply own_property_key in H.
    repeat (destruct H as [<- | H]; [by eexists |]). destruct H.
  - intros token stored H. apply own_property_key in H.
    repeat (destruct H as [<- | H]; [by eexists |]). destruct H.
Qed.

(** ** The routes of the controllers *)

(** A request as it reaches a handler's guards: the handler's decorators,
    a class that only carries [@UseGuards], the header, no user yet. *)
Definition incoming {User} (handler : Metadata) (header : option string)
  : ExecutionContext User :=
  {| getHandler := handler; getClass := no_metadata;
     getRequest := {| authorization := header; user := None |} |}.

(** [@Public()] as the only decorator of a handler. *)
Definition Public : Metadata :=
  {| IS_PUBLIC_KEY := Some true; ROLES_KEY := None; PERMISSIONS_KEY := None;
     MODULE_PERMISSIONS_KEY := None |}.

(** The handlers of [PostsController] with their decorators. *)
Definition PostsController : list (string * Metadata) :=
  [ ("getPublicPosts", Public);
    ("findAll", RequirePermissions [Example2.READ]);
    ("findOne", RequirePermissions [Example2.READ]);
    ("create", RequirePermissions [Example2.CREATE]);
    ("update", RequirePermissions [Example2.UPDATE]);
    ("delete", RequirePermissions [Example2.DELETE]);
    ("publish", RequirePermissions [Example2.UPDATE; Example2.CREATE]) ].

(** The handlers the chain lets a request with this header reach. *)
Definition reachable2 (header : option string) : list string :=
  map fst
    (List.filter
       (λ route, match fst (Example2.guards (incoming (snd route) header)) with
                 | Return true => true
                 | _ => false
                 end)
       PostsController).

(** X23. Who reaches what in [PostsController]: without a header only the
    public handler; the reader the two read handlers as well; creator and
    editor one more each; and [publish], which requires both [update]
    and [create], only the full-access token. *)
Theorem PostsController_access :
  reachable2 None = ["getPublicPosts"]
  ∧ reachable2 (Some "Bearer token-read-only")
    = ["getPublicPosts"; "findAll"; "findOne"]
  ∧ reachable2 (Some "Bearer token-creator")
    = ["getPublicPosts"; "findAll"; "findOne"; "create"]
  ∧ reachable2 (Some "Bearer token-editor")
    = ["getPublicPosts"; "findAll"; "findOne"; "update"]
  ∧ reachable2 (Some "Bearer token-full-access") = map fst PostsController
  ∧ (∀ header,
       In "publish" (reachable2 header) →
       AuthGuard.extractTokenFromHeader
         ({| authorization := header; user := None |} : Request Example2.User)
       = Some "token-full-access").
Proof.
  refine (conj _ (conj _ (conj _ (conj _ (conj _ _))))); try reflexivity.
  intros header Hin. unfold reachable2 in Hin.
  apply in_map_iff in Hin as ([name meta] & Hname & Hin).
  apply filter_In in Hin as [Hroute Hok]. cbn in Hname. subst name.
  assert (meta = RequirePermissions [Example2.UPDATE; Example2.CREATE]) as ->.
  { destruct Hroute as [H|[H|[H|[H|[H|[H|[H|[]]]]]]]];
      try discriminate H. by injection H as <-. }
  cbn [snd] in Hok.
  destruct (Example2.guards _) as [[[]|e] request'] eqn:Hg; try done.
  unfold Example2.guards, Example2.AuthGuard_canActivate in Hg.
  apply (useGuards_allows_iff _ _
           (incoming (RequirePermissions [Example2.UPDATE; Example2.CREATE])
              header) request' eq_refl) in Hg
    as (token & u & Hex & _ & Hv & -> & Hz).
  apply (PermissionsGuard_allows_iff
           (with_request
              (incoming (RequirePermissions [Example2.UPDATE; Example2.CREATE])
                 header)
              (with_user {| authorization := header; user := None |} u))
           [Example2.UPDATE; Example2.CREATE] u
           eq_refl ltac:(discriminate) eq_refl) in Hz
    as (granted & Hp & Hsub).
  cbn [incoming getRequest] in Hex. rewrite Hex. f_equal.
  pose proof (Hsub Example2.UPDATE (or_introl eq_refl)) as HU.
  pose proof (Hsub Example2.CREATE (or_intror (or_introl eq_refl))) as HC.
  pose proof (validateToken2_keys token u Hv) as Hkey.
  destruct Hkey as [<-|[<-|[<-|[<-|[]]]]];
    vm_compute in Hv; injection Hv as <-; injection Hp as <-;
    try done; exfalso; vm_compute in HU, HC; intuition discriminate.
Qed.

(** The handlers of the three Example 3 controllers with their
    decorators; none is public and each requires one permission. *)
Definition Example3_UsersController : list (string * Metadata) :=
  [ ("listUsers", RequireModulePermissions [Example3.USERS_LIST]);
    ("getUser", RequireModulePermissions [Example3.USERS_READ]);
    ("createUser", RequireModulePermissions [Example3.USERS_CREATE]);
    ("updateUser", RequireModulePermissions [Example3.USERS_UPDATE]);
    ("deleteUser", RequireModulePermissions [Example3.USERS_DELETE]) ].

Definition ProductsController : list (string * Metadata) :=
  [ ("listProducts", RequireModulePermissions [Example3.PRODUCTS_LIST]);
    ("getProduct", RequireModulePermissions [Example3.PRODUCTS_READ]);
    ("createProduct", RequireModulePermissions [Example3.PRODUCTS_CREATE]);
    ("updateProduct", RequireModulePermissions [Example3.PRODUCTS_UPDATE]);
    ("manageInventory",
     RequireModulePermissions [Example3.PRODUCTS_MANAGE_INVENTORY]);
    ("deleteProduct", RequireModulePermissions [Example3.PRODUCTS_DELETE]) ].

Definition OrdersController : list (string * Metadata) :=
  [ ("listOrders", RequireModulePermissions [Example3.ORDERS_LIST]);
    ("getOrder", RequireModulePermissions [Example3.ORDERS_READ]);
    ("createOrder", RequireModulePermissions [Example3.ORDERS_CREATE]);
    ("updateOrder", RequireModulePermissions [Example3.ORDERS_UPDATE]);
    ("cancelOrder", RequireModulePermissions [Example3.ORDERS_CANCEL]);
    ("refundOrder", RequireModulePermissions [Example3.ORDERS_REFUND]);
    ("deleteOrder", RequireModulePermissions [Example3.ORDERS_DELETE]) ].

Definition Example3_routes : list (string * Metadata) :=
  (Example3_UsersController ++ ProductsController ++ OrdersController)%list.

Definition reachable3 (header : option string) : list string :=
  map fst
    (List.filter
       (λ route, match fst (Example3.guards (incoming (snd route) header)) with
                 | Return true => true
                 | _ => false
                 end)
       Example3_routes).

(** X24. Who reaches what in Example 3.  Nothing is reachable without a
    token; the admin token reaches every handler; the content-manager
    token reaches none, all its permissions being for posts, which have
    no controller; customer service can read users but not update them;
    every create and delete handler is left to the admin token, apart
    from [createProduct], which the product manager reaches too. *)
Theorem Example3_access :
  reachable3 None = []
  ∧ reachable3 (Some "Bearer token-admin-full") = map fst Example3_routes
  ∧ reachable3 (Some "Bearer token-content-manager") = []
  ∧ reachable3 (Some "Bearer token-product-manager")
    = ["listProducts"; "getProduct"; "createProduct"; "updateProduct";
       "manageInventory"]
  ∧ reachable3 (Some "Bearer token-customer-service")
    = ["listUsers"; "getUser"; "listOrders"; "getOrder"; "updateOrder";
       "cancelOrder"; "refundOrder"]
  ∧ reachable3 (Some "Bearer token-readonly")
    = ["listUsers"; "getUser"; "listProducts"; "getProduct"; "listOrders";
       "getOrder"].
Proof. repeat split; vm_compute; reflexivity. Qed.

(** The handlers of the Example 1 [UsersController]. *)
Definition Example1_UsersController : list (string * Metadata) :=
  [ ("login", Public);
    ("findAll", Roles [Example1.READ; Example1.ADMIN; Example1.MANAGER;
                       Example1.SUPER_ADMIN]);
    ("findOne", Roles [Example1.READ; Example1.ADMIN; Example1.MANAGER;
                       Example1.SUPER_ADMIN]);
    ("create", Roles [Example1.ADMIN; Example1.SUPER_ADMIN]);
    ("update", Roles [Example1.MANAGER; Example1.SUPER_ADMIN]);
    ("delete", Roles [Example1.SUPER_ADMIN]);
    ("getDashboard", Roles [Example1.ADMIN]) ].

(** The handlers [RolesGuard] lets a request with this identity reach. *)
Definition reachable1 (identity : option Example1.UserData) : list string :=
  map fst
    (List.filter
       (λ route,
          match Example1.RolesGuard.canActivate
                  {| getHandler := snd route; getClass := no_metadata;
                     getRequest := {| authorization := None;
                                      user := identity |} |} with
          | Return true => true
          | _ => false
          end)
       Example1_UsersController).

Definition directory_user (username : string) : option Example1.UserData :=
  Example1.validateUser username "".

(** X25. Who reaches what in Example 1, for the identity [verifyToken]
    recovers from a login token that has not expired.  Roles are matched
    literally: the dashboard asks for [admin], which the directory's
    [super_admin] user holds besides [super_admin]; an identity holding
    [super_admin] alone does not reach it. *)
Theorem Example1_access (now later : N) :
  (later / 1000 < now / 1000 + 86400)%N →
  let identity username :=
    match directory_user username with
    | Some entry =>
        Example1.verifyToken later (Example1.generateToken now entry)
    | None => None
    end in
  reachable1 (identity "reader") = ["login"; "findAll"; "findOne"]
  ∧ reachable1 (identity "john_admin")
    = ["login"; "findAll"; "findOne"; "create"; "getDashboard"]
  ∧ reachable1 (identity "jane_manager")
    = ["login"; "findAll"; "findOne"; "update"]
  ∧ reachable1 (identity "super_admin") = map fst Example1_UsersController
  ∧ reachable1
      (Some {| Example1.id := "3"; Example1.username := "super_admin";
               Example1.email := "super@example.com";
               Example1.roles := Some [Example1.SUPER_ADMIN] |})
    = ["login"; "findAll"; "findOne"; "create"; "update"; "delete"].
Proof.
  intros Hwindow identity. subst identity. cbn beta.
  assert (Hid : ∀ entry,
            Example1.verifyToken later (Example1.generateToken now entry)
            = Some entry).
  { intros entry. rewrite verifyToken_window.
    destruct (N.leb_spec (now / 1000 + 86400) (later / 1000)); [lia | done]. }
  cbv beta.
  change (directory_user "reader") with (Some (nth 3 Example1.users reader)).
  change (directory_user "john_admin")
    with (Some (nth 0 Example1.users reader)).
  change (directory_user "jane_manager")
    with (Some (nth 1 Example1.users reader)).
  change (directory_user "super_admin")
    with (Some (nth 2 Example1.users reader)).
  cbv iota beta. rewrite !Hid. repeat split; vm_compute; reflexivity.
Qed.

Lemma Example1_access_witness :
  reachable1
    (Example1.verifyToken 1735003600000
       (Example1.generateToken 1735000000000 reader))
  = ["login"; "findAll"; "findOne"].
Proof.
  exact (proj1 (Example1_access 1735000000000 1735003600000
                  ltac:(vm_compute; reflexivity))).
Defined.

(** A 403 is only ever sent to a caller whose token was resolved. *)
Lemma useGuards_forbidden_after_authentication_witness :
  ∃ token u,
    AuthGuard.extractTokenFromHeader
      (getRequest (route2_context [Example2.DELETE]
                     (Some "Bearer token-read-only") None)) = Some token
    ∧ Example2.validateToken token = Some u
    ∧ snd (useGuards (AuthGuard.canActivate Example2.validateToken)
             Example2.PermissionsGuard.canActivate
             (route2_context [Example2.DELETE]
                (Some "Bearer token-read-only") None))
      = with_user
          (getRequest (route2_context [Example2.DELETE]
                         (Some "Bearer token-read-only") None)) u.
Proof.
  exact (useGuards_forbidden_after_authentication Example2.validateToken
           Example2.PermissionsGuard.canActivate
           (route2_context [Example2.DELETE] (Some "Bearer token-read-only")
              None)
           (ForbiddenException
              "Access denied. Missing permissions: delete. Your permissions: read")
           eq_refl eq_refl eq_refl).
Defined.

